(** * ArtilleryShells: the window procedure and the idle-pump message loop

    A shallow embedding of [src/ArtilleryShells/src/main.cpp]: the entry
    point [wWinMain] (window-class registration, window creation, the
    PeekMessage loop) and the window procedure [WndProc].

    The program talks to the windowing system all the time, so the
    embedding threads an explicit [World] (the thread's message queue and
    what the system will answer) through every call and records each call
    in a trace of [event]s.  The calls of the Win32 API are modelled after
    their documented contract, reduced to what the program can observe:

    - the message queue is a FIFO list; [PostQuitMessage] appends the
      WM_QUIT record, and messages posted from outside arrive in batches
      ([incoming]), one batch before each poll of the queue;
    - [PeekMessage] never waits: with an empty queue it answers FALSE and
      leaves the caller's MSG untouched;
    - [DispatchMessage] calls the window procedure of the target window
      (here always [WndProc], the procedure of the one registered class)
      and does nothing for a message that belongs to no window;
    - the [else] branch of the loop is empty in the source (its update,
      render and present calls are comments), so an idle pass shows in
      the trace only as a removing poll that found nothing;
    - [DefWindowProc] is taken as an arbitrary function of its four
      arguments, [LoadIcon], [LoadCursor] and [GetStockObject] as arbitrary
      look-ups; [TranslateMessage] and [ShowWindow] only leave an event;
    - whether [RegisterClassEx] and [CreateWindowEx] succeed is for the
      system to decide: the world holds the two answers.

    The loop may run forever, so [message_loop] takes fuel: the number of
    iterations it may still perform. *)

From Stdlib Require Import String ZArith List Lia.
Import ListNotations.
Local Open Scope Z_scope.

(** ** Constants of WinUser.h used by the program *)

Definition WM_NULL : Z := 0.
Definition WM_DESTROY : Z := 2.
Definition WM_QUIT : Z := 18.
Definition PM_NOREMOVE : Z := 0.
Definition PM_REMOVE : Z := 1.
Definition NULL : Z := 0.
Definition IDI_APPLICATION : Z := 32512.
Definition IDC_ARROW : Z := 32512.
Definition BLACK_BRUSH : Z := 4.
Definition WS_OVERLAPPEDWINDOW : Z := 13565952.
Definition CW_USEDEFAULT : Z := -2147483648.

(** [sizeof(WNDCLASSEX)] of a 64-bit build. *)
Definition sizeof_WNDCLASSEX : Z := 80.

(** ** Data *)

(** The MSG structure.  Handles and parameter words are opaque integers. *)
Record MSG : Type := mkMSG {
  hwnd : Z;
  message : Z;
  wParam : Z;
  lParam : Z;
  time : Z;
  pt : Z * Z
}.

Definition set_message (m : MSG) (v : Z) : MSG :=
  mkMSG (hwnd m) v (wParam m) (lParam m) (time m) (pt m).

(** The message the system queues for [PostQuitMessage nExitCode]. *)
Definition quit_message (nExitCode : Z) : MSG :=
  mkMSG NULL WM_QUIT nExitCode 0 0 (0, 0).

(** The address of a window procedure; the program has one. *)
Inductive WNDPROC : Type := WndProc_address.

(** The WNDCLASSEX structure. *)
Record WNDCLASSEX : Type := mkWNDCLASSEX {
  cbSize : Z;
  style : Z;
  lpfnWndProc : WNDPROC;
  cbClsExtra : Z;
  cbWndExtra : Z;
  hInstance : Z;
  hIcon : Z;
  hCursor : Z;
  hbrBackground : Z;
  lpszMenuName : option string;
  lpszClassName : string;
  hIconSm : Z
}.

(** The calls of the system that only look something up. *)
Record System : Type := mkSystem {
  def_proc : Z -> Z -> Z -> Z -> Z;  (* what DefWindowProc returns *)
  LoadIcon : Z -> Z -> Z;
  LoadCursor : Z -> Z -> Z;
  GetStockObject : Z -> Z
}.

(** The locals declared in front of the loop.  [bGotMsg] has no value
    until the first iteration assigns it. *)
Record LoopState : Type := mkLoopState {
  bGotMsg : option bool;
  msg : MSG
}.

(** What the windowing system holds for this thread. *)
Record World : Type := mkWorld {
  queue : list MSG;            (* pending messages, oldest first *)
  incoming : list (list MSG);  (* batches posted from outside, one per poll *)
  register_result : Z;         (* the ATOM RegisterClassEx answers; 0 = failure *)
  create_result : Z;           (* the HWND CreateWindowEx answers; NULL = failure *)
  windows : list Z             (* windows created so far *)
}.

Definition set_queue (w : World) (q : list MSG) : World :=
  mkWorld q (incoming w) (register_result w) (create_result w) (windows w).

Definition add_window (w : World) (h : Z) : World :=
  mkWorld (queue w) (incoming w) (register_result w) (create_result w)
          (h :: windows w).

(** The next batch of outside messages reaches the queue. *)
Definition deliver (w : World) : World :=
  match incoming w with
  | [] => w
  | batch :: later =>
      mkWorld (queue w ++ batch) later (register_result w) (create_result w)
              (windows w)
  end.

(** One entry per call that leaves the program, in program order (the
    three look-ups that fill the window class leave none).  The last
    three are the calls that the comments of lines 110, 113 and 116 name;
    the program as written contains none of them, so nothing below emits
    them. *)
Inductive event : Type :=
| EvRegisterClassEx (atom : Z)
| EvCreateWindowEx (handle : Z)
| EvShowWindow (handle nCmdShow : Z)
| EvPeekMessage (wRemoveMsg : Z) (found : option MSG)
| EvTranslateMessage (m : MSG)
| EvDispatchMessage (m : MSG)
| EvPostQuitMessage (nExitCode : Z)
| EvDefWindowProc (h uMsg wp lp : Z)
| EvUpdate
| EvRender
| EvPresent.

(** ** The monad: world passing plus a trace *)

Definition M (A : Type) : Type := World -> A * World * list event.

Definition ret {A : Type} (a : A) : M A := fun w => (a, w, []).

Definition bind {A B : Type} (m : M A) (k : A -> M B) : M B :=
  fun w =>
    let '(a, w1, t1) := m w in
    let '(b, w2, t2) := k a w1 in
    (b, w2, t1 ++ t2).

Definition emit (e : event) : M unit := fun w => (tt, w, [e]).

Declare Scope win_scope.
Delimit Scope win_scope with win.
Notation "x <- m ;; k" := (bind m (fun x => k))
  (at level 61, m at next level, right associativity) : win_scope.
Notation "m ;;; k" := (bind m (fun _ => k))
  (at level 61, right associativity) : win_scope.
Local Open Scope win_scope.

(** ** The Win32 calls *)

(** [PeekMessage(lpMsg, NULL, 0, 0, wRemoveMsg)]: the answer and the
    contents of [*lpMsg] afterwards.  Bit 0 of the flags is PM_REMOVE. *)
Definition PeekMessage (lpMsg : MSG) (wRemoveMsg : Z) : M (bool * MSG) :=
  fun w =>
    let w1 := deliver w in
    match queue w1 with
    | [] => ((false, lpMsg), w1, [EvPeekMessage wRemoveMsg None])
    | m :: rest =>
        ((true, m),
         if Z.testbit wRemoveMsg 0 then set_queue w1 rest else w1,
         [EvPeekMessage wRemoveMsg (Some m)])
    end.

Definition TranslateMessage (m : MSG) : M unit := emit (EvTranslateMessage m).

Definition PostQuitMessage (nExitCode : Z) : M unit :=
  fun w =>
    (tt, set_queue w (queue w ++ [quit_message nExitCode]),
     [EvPostQuitMessage nExitCode]).

(** The system decides whether a class is registered and a window is
    created; the model takes its two answers from the world. *)
Definition RegisterClassEx (wc : WNDCLASSEX) : M Z :=
  fun w => (register_result w, w, [EvRegisterClassEx (register_result w)]).

Definition CreateWindowEx (dwExStyle : Z) (lpClassName lpWindowName : string)
    (dwStyle X Y nWidth nHeight hWndParent hMenu hInst lpParam : Z) : M Z :=
  fun w =>
    let h := create_result w in
    (h, if h =? NULL then w else add_window w h, [EvCreateWindowEx h]).

Definition ShowWindow (h nCmdShow : Z) : M unit := emit (EvShowWindow h nCmdShow).

Definition is_window (w : World) (h : Z) : bool := existsb (Z.eqb h) (windows w).

Section Program.

(** The look-up calls of the system, and the indeterminate contents of
    the MSG local before the program writes to it. *)
Variable sys : System.
Variable uninit : MSG.

Definition DefWindowProc (h uMsg wp lp : Z) : M Z :=
  emit (EvDefWindowProc h uMsg wp lp) ;;; ret (def_proc sys h uMsg wp lp).

(** ** main.cpp, lines 138-153 *)
Definition WndProc (hwnd uMsg wParam lParam : Z) : M Z :=
  (if uMsg =? WM_DESTROY then PostQuitMessage 0 else ret tt) ;;;
  DefWindowProc hwnd uMsg wParam lParam.

(** The system side of [DispatchMessage]: route to the window procedure. *)
Definition DispatchMessage (m : MSG) : M Z :=
  emit (EvDispatchMessage m) ;;;
  (fun w =>
     if is_window w (hwnd m)
     then WndProc (hwnd m) (message m) (wParam m) (lParam m) w
     else ret 0 w).

(** ** main.cpp, lines 101-117: the body of the loop.  The [else]
    branch holds comments only. *)
Definition iteration (ls : LoopState) : M LoopState :=
  r <- PeekMessage (msg ls) PM_REMOVE ;;
  let ls1 := mkLoopState (Some (fst r)) (snd r) in
  if fst r
  then TranslateMessage (msg ls1) ;;; _ <- DispatchMessage (msg ls1) ;; ret ls1
  else ret ls1.

(** How a bounded run of the loop ends. *)
Inductive outcome : Type :=
| Exited (ls : LoopState)
| OutOfFuel (ls : LoopState).

(** ** main.cpp, line 98: [while (msg.message != WM_QUIT)] *)
Fixpoint message_loop (fuel : nat) (ls : LoopState) : M outcome :=
  if message (msg ls) =? WM_QUIT then ret (Exited ls)
  else
    match fuel with
    | O => ret (OutOfFuel ls)
    | S fuel' => ls' <- iteration ls ;; message_loop fuel' ls'
    end.

(** What the entry point returns when the bounded run of the loop ends:
    [return 0] behind the loop, nothing while the loop is still running. *)
Definition exit_status (o : outcome) : option Z :=
  match o with
  | Exited _ => Some 0
  | OutOfFuel _ => None
  end.

(** ** main.cpp, lines 43-60: the window class *)
Definition WINDOW_CLASS_NAME : string := "Game Window Class".

Definition window_class (hInstance : Z) : WNDCLASSEX :=
  mkWNDCLASSEX
    sizeof_WNDCLASSEX                         (* cbSize *)
    0                                         (* style *)
    WndProc_address                           (* lpfnWndProc *)
    0                                         (* cbClsExtra *)
    0                                         (* cbWndExtra *)
    hInstance                                 (* hInstance *)
    (LoadIcon sys hInstance IDI_APPLICATION)  (* hIcon *)
    (LoadCursor sys NULL IDC_ARROW)           (* hCursor *)
    (GetStockObject sys BLACK_BRUSH)          (* hbrBackground *)
    None                                      (* lpszMenuName *)
    WINDOW_CLASS_NAME                         (* lpszClassName *)
    NULL.                                     (* hIconSm *)

(** ** main.cpp, lines 29-121.  The result is [None] when the loop was
    still running as the fuel ran out. *)
Definition wWinMain (hInstance nCmdShow : Z) (fuel : nat) : M (option Z) :=
  let wc := window_class hInstance in
  windowClassHandle <- RegisterClassEx wc ;;
  if windowClassHandle =? 0 then ret (Some (-1))
  else
    mainWindowHandle <-
      CreateWindowEx 0 WINDOW_CLASS_NAME "Artillery Shells" WS_OVERLAPPEDWINDOW
        CW_USEDEFAULT CW_USEDEFAULT 800 600 NULL NULL hInstance NULL ;;
    if mainWindowHandle =? NULL then ret (Some (-1))
    else
      ShowWindow mainWindowHandle nCmdShow ;;;
      r <- PeekMessage (set_message uninit WM_NULL) PM_NOREMOVE ;;
      o <- message_loop fuel (mkLoopState None (snd r)) ;;
      ret (exit_status o).

End Program.

(** ** Reading a trace *)

(** The messages handed to [DispatchMessage], in order. *)
Fixpoint dispatched (t : list event) : list MSG :=
  match t with
  | [] => []
  | EvDispatchMessage m :: t' => m :: dispatched t'
  | _ :: t' => dispatched t'
  end.

(** The messages handed to [TranslateMessage], in order. *)
Fixpoint translated (t : list event) : list MSG :=
  match t with
  | [] => []
  | EvTranslateMessage m :: t' => m :: translated t'
  | _ :: t' => translated t'
  end.

(** Every poll of the queue: its flags and what it found. *)
Fixpoint peeks (t : list event) : list (Z * option MSG) :=
  match t with
  | [] => []
  | EvPeekMessage f r :: t' => (f, r) :: peeks t'
  | _ :: t' => peeks t'
  end.

(** The messages taken off the queue (found by a removing poll). *)
Fixpoint retrieved (t : list event) : list MSG :=
  match t with
  | [] => []
  | EvPeekMessage f (Some m) :: t' =>
      if Z.testbit f 0 then m :: retrieved t' else retrieved t'
  | _ :: t' => retrieved t'
  end.

(** How often the loop passed through its [else] branch: the removing
    polls that found the queue empty. *)
Fixpoint idle_count (t : list event) : nat :=
  match t with
  | [] => O
  | EvPeekMessage f None :: t' =>
      if Z.testbit f 0 then S (idle_count t') else idle_count t'
  | _ :: t' => idle_count t'
  end.

(** The calls of the update / render / present hooks, in order. *)
Fixpoint hook_calls (t : list event) : list event :=
  match t with
  | [] => []
  | EvUpdate :: t' => EvUpdate :: hook_calls t'
  | EvRender :: t' => EvRender :: hook_calls t'
  | EvPresent :: t' => EvPresent :: hook_calls t'
  | _ :: t' => hook_calls t'
  end.

Definition is_quit (m : MSG) : bool := message m =? WM_QUIT.

Definition not_quit (m : MSG) : Prop := message m <> WM_QUIT.

(** ** Closed forms of the calls, used to state what a run looks like *)

Section Shapes.

Variable sys : System.
Variable uninit : MSG.

(** The events of one call of the window procedure. *)
Definition wndproc_events (h uMsg wp lp : Z) : list event :=
  (if uMsg =? WM_DESTROY then [EvPostQuitMessage 0] else [])
  ++ [EvDefWindowProc h uMsg wp lp].

(** The world after the window procedure handled [uMsg]. *)
Definition wndproc_world (uMsg : Z) (w : World) : World :=
  if uMsg =? WM_DESTROY then set_queue w (queue w ++ [quit_message 0]) else w.

(** The events that follow [EvDispatchMessage m] inside the dispatch. *)
Definition dispatch_events (w : World) (m : MSG) : list event :=
  if is_window w (hwnd m)
  then wndproc_events (hwnd m) (message m) (wParam m) (lParam m)
  else [].

Definition dispatch_world (w : World) (m : MSG) : World :=
  if is_window w (hwnd m) then wndproc_world (message m) w else w.

Definition dispatch_result (w : World) (m : MSG) : Z :=
  if is_window w (hwnd m)
  then def_proc sys (hwnd m) (message m) (wParam m) (lParam m)
  else 0.

(** The calls in front of the priming poll when both handles are valid. *)
Definition startup_events (w : World) (nCmdShow : Z) : list event :=
  [EvRegisterClassEx (register_result w); EvCreateWindowEx (create_result w);
   EvShowWindow (create_result w) nCmdShow].

(** The world the priming poll runs in, and what it leaves behind. *)
Definition started (w : World) : World := add_window w (create_result w).

Definition primed_world (w : World) : World := deliver (started w).

(** The MSG local when the loop condition is first tested. *)
Definition primed_msg (w : World) : MSG :=
  match queue (primed_world w) with
  | [] => set_message uninit WM_NULL
  | m :: _ => m
  end.

(** *** Idle stretches *)

(** [n] iterations that find nothing. *)
Fixpoint idle_run (n : nat) : list event :=
  match n with
  | O => []
  | S n' => EvPeekMessage PM_REMOVE None :: idle_run n'
  end.

(** The next [n] batches from outside are empty (or there are none). *)
Definition nothing_arrives (n : nat) (w : World) : Prop :=
  Forall (fun batch => batch = []) (firstn n (incoming w)).

(** The events [pre] end with the dispatch of a WM_DESTROY message. *)
Definition behind_destroy (pre : list event) : Prop :=
  exists pre' m, pre = pre' ++ [EvDispatchMessage m] /\ message m = WM_DESTROY.

(** The loop is entered with [m0] in the MSG local: a run with fuel for
    one more iteration goes on, behind the priming poll, with a first
    iteration from that state. *)
Definition enters_loop (hInstance nCmdShow : Z) (fuel : nat) (w : World)
    (m0 : MSG) : Prop :=
  exists ls1 w1 t1 r w2 tl,
    iteration sys (mkLoopState None m0) (primed_world w) = (ls1, w1, t1)
    /\ wWinMain sys uninit hInstance nCmdShow (S fuel) w
       = (r, w2,
          startup_events w nCmdShow
          ++ EvPeekMessage PM_NOREMOVE (hd_error (queue (primed_world w)))
             :: t1 ++ tl).

End Shapes.

(** ** Further readings of a trace *)

(** The exit codes passed to [PostQuitMessage], in order. *)
Fixpoint quit_posts (t : list event) : list Z :=
  match t with
  | [] => []
  | EvPostQuitMessage c :: t' => c :: quit_posts t'
  | _ :: t' => quit_posts t'
  end.

(** The calls of lines 64-90: registration, creation, showing. *)
Fixpoint startup_calls (t : list event) : list event :=
  match t with
  | [] => []
  | EvRegisterClassEx a :: t' => EvRegisterClassEx a :: startup_calls t'
  | EvCreateWindowEx h :: t' => EvCreateWindowEx h :: startup_calls t'
  | EvShowWindow h n :: t' => EvShowWindow h n :: startup_calls t'
  | _ :: t' => startup_calls t'
  end.

(** The messages that reached the queue while [t] ran, in the order they
    reached it: each poll lets the next outside batch in, each call of
    [PostQuitMessage] queues a sentinel. *)
Fixpoint entered (t : list event) (arrivals : list (list MSG)) : list MSG :=
  match t with
  | [] => []
  | EvPeekMessage _ _ :: t' => hd [] arrivals ++ entered t' (tl arrivals)
  | EvPostQuitMessage c :: t' => quit_message c :: entered t' arrivals
  | _ :: t' => entered t' arrivals
  end.

(** One of the two startup calls fails in [w] (lines 65 and 86). *)
Definition startup_fails (w : World) : bool :=
  ((register_result w =? 0) || (create_result w =? NULL))%bool.

(** How many of [msgs] are WM_DESTROY messages for one of the windows
    [ws]. *)
Fixpoint destroy_count (ws : list Z) (msgs : list MSG) : nat :=
  match msgs with
  | [] => O
  | m :: msgs' =>
      if (existsb (Z.eqb (hwnd m)) ws && (message m =? WM_DESTROY))%bool
      then S (destroy_count ws msgs')
      else destroy_count ws msgs'
  end.

(** ** Sample inputs *)

Definition WM_PAINT : Z := 15.
Definition WM_MOUSEMOVE : Z := 512.

Definition sample_hwnd : Z := 1313.

Definition sample_sys : System :=
  mkSystem (fun h uMsg wp lp => 0) (fun hInst name => 65563)
           (fun hInst name => 65541) (fun object => 1900015).

(** Stack garbage in the MSG local, as a debug build would fill it. *)
Definition sample_uninit : MSG :=
  mkMSG 3435973836 3435973836 3435973836 3435973836 3435973836
        (3435973836, 3435973836).

Definition sample_A : MSG := mkMSG sample_hwnd WM_MOUSEMOVE 0 6553700 10 (100, 100).
Definition sample_B : MSG := mkMSG sample_hwnd WM_PAINT 0 0 11 (100, 100).
Definition sample_destroy : MSG := mkMSG sample_hwnd WM_DESTROY 0 0 12 (0, 0).

(** A system in which registration and creation succeed. *)
Definition sample_world (q : list MSG) (arrivals : list (list MSG)) : World :=
  mkWorld q arrivals 49217 sample_hwnd [].

(** A run that drains one message and then the sentinel. *)
Definition sample_quit_run : option Z * World * list event :=
  wWinMain sample_sys sample_uninit 0 1 5
    (sample_world [sample_A; quit_message 0] []).

(** A run in which the window is destroyed. *)
Definition sample_destroy_run : option Z * World * list event :=
  wWinMain sample_sys sample_uninit 0 1 5
    (sample_world [sample_destroy] []).

(** A run that finds nothing twice and then the sentinel. *)
Definition sample_idle_quit_run : option Z * World * list event :=
  wWinMain sample_sys sample_uninit 0 1 7
    (sample_world [] [[]; []; []; [quit_message 0; sample_A]; [sample_B]]).

(** A run with [A; B; WM_QUIT] pending at the start. *)
Definition sample_ABQ_run : option Z * World * list event :=
  wWinMain sample_sys sample_uninit 0 1 3
    (sample_world [sample_A; sample_B; quit_message 0] []).

(** Closed goals about sample inputs. *)
Ltac by_computation := cbv; first [reflexivity | discriminate | lia].

(** ** The observers and concatenation *)

Lemma dispatched_app (t1 t2 : list event) :
  dispatched (t1 ++ t2) = dispatched t1 ++ dispatched t2.
Proof.
  induction t1 as [|e t1 IH]; [reflexivity|].
  destruct e; simpl; rewrite IH; reflexivity.
Qed.

Lemma translated_app (t1 t2 : list event) :
  translated (t1 ++ t2) = translated t1 ++ translated t2.
Proof.
  induction t1 as [|e t1 IH]; [reflexivity|].
  destruct e; simpl; rewrite IH; reflexivity.
Qed.

Lemma peeks_app (t1 t2 : list event) :
  peeks (t1 ++ t2) = peeks t1 ++ peeks t2.
Proof.
  induction t1 as [|e t1 IH]; [reflexivity|].
  destruct e; simpl; rewrite IH; reflexivity.
Qed.

Lemma retrieved_app (t1 t2 : list event) :
  retrieved (t1 ++ t2) = retrieved t1 ++ retrieved t2.
Proof.
  induction t1 as [|e t1 IH]; [reflexivity|].
  destruct e as [| | |f [m|]| | | | | | |]; cbn [retrieved app]; rewrite IH;
    try reflexivity.
  destruct (Z.testbit f 0); reflexivity.
Qed.

Lemma idle_count_app (t1 t2 : list event) :
  idle_count (t1 ++ t2) = (idle_count t1 + idle_count t2)%nat.
Proof.
  induction t1 as [|e t1 IH]; [reflexivity|].
  destruct e as [| | |f [m|]| | | | | | |]; cbn [idle_count app]; rewrite IH;
    try reflexivity.
  destruct (Z.testbit f 0); reflexivity.
Qed.

Lemma hook_calls_app (t1 t2 : list event) :
  hook_calls (t1 ++ t2) = hook_calls t1 ++ hook_calls t2.
Proof.
  induction t1 as [|e t1 IH]; [reflexivity|].
  destruct e; simpl; rewrite IH; reflexivity.
Qed.

(** ** What one call does *)

Section Runs.

Variable sys : System.
Variable uninit : MSG.

Lemma WndProc_run (h uMsg wp lp : Z) (w : World) :
  WndProc sys h uMsg wp lp w
  = (def_proc sys h uMsg wp lp, wndproc_world uMsg w, wndproc_events h uMsg wp lp).
Proof.
  unfold WndProc, wndproc_world, wndproc_events, bind.
  destruct (uMsg =? WM_DESTROY); reflexivity.
Qed.

Lemma DispatchMessage_run (m : MSG) (w : World) :
  DispatchMessage sys m w
  = (dispatch_result sys w m, dispatch_world w m,
     EvDispatchMessage m :: dispatch_events w m).
Proof.
  unfold DispatchMessage, bind, emit, dispatch_result, dispatch_world,
    dispatch_events.
  destruct (is_window w (hwnd m)); [rewrite WndProc_run|]; reflexivity.
Qed.

(** Inside a dispatch nothing polls the queue, translates, dispatches or
    idles. *)
Lemma dispatch_events_quiet (w : World) (m : MSG) :
  peeks (dispatch_events w m) = []
  /\ dispatched (dispatch_events w m) = []
  /\ translated (dispatch_events w m) = []
  /\ retrieved (dispatch_events w m) = []
  /\ idle_count (dispatch_events w m) = O.
Proof.
  unfold dispatch_events, wndproc_events.
  destruct (is_window w (hwnd m)); [|repeat split].
  destruct (message m =? WM_DESTROY); repeat split.
Qed.

Lemma dispatch_world_queue (w : World) (m : MSG) :
  exists posted, queue (dispatch_world w m) = queue w ++ posted.
Proof.
  unfold dispatch_world, wndproc_world.
  destruct (is_window w (hwnd m)); [destruct (message m =? WM_DESTROY)|].
  - exists [quit_message 0]. reflexivity.
  - exists []. now rewrite app_nil_r.
  - exists []. now rewrite app_nil_r.
Qed.

Lemma dispatch_world_rest (w : World) (m : MSG) :
  incoming (dispatch_world w m) = incoming w
  /\ windows (dispatch_world w m) = windows w.
Proof.
  unfold dispatch_world, wndproc_world.
  destruct (is_window w (hwnd m)); [destruct (message m =? WM_DESTROY)|];
    split; reflexivity.
Qed.

(** An iteration that finds the queue empty. *)
Lemma iteration_idle (ls : LoopState) (w : World) :
  queue (deliver w) = [] ->
  iteration sys ls w
  = (mkLoopState (Some false) (msg ls), deliver w,
     [EvPeekMessage PM_REMOVE None]).
Proof.
  intros E. unfold iteration, bind, PeekMessage. rewrite E. reflexivity.
Qed.

(** An iteration that finds [m] at the head of the queue. *)
Lemma iteration_message (ls : LoopState) (w : World) (m : MSG) (rest : list MSG) :
  queue (deliver w) = m :: rest ->
  iteration sys ls w
  = (mkLoopState (Some true) m,
     dispatch_world (set_queue (deliver w) rest) m,
     EvPeekMessage PM_REMOVE (Some m) :: EvTranslateMessage m
       :: EvDispatchMessage m
       :: dispatch_events (set_queue (deliver w) rest) m).
Proof.
  intros E. unfold iteration, bind, PeekMessage, TranslateMessage, emit.
  rewrite E. cbn [fst snd msg].
  change (Z.testbit PM_REMOVE 0) with true. cbv iota.
  rewrite DispatchMessage_run. unfold ret. cbn [app].
  rewrite app_nil_r. reflexivity.
Qed.

(** The loop head. *)
Lemma loop_exit (fuel : nat) (ls : LoopState) (w : World) :
  message (msg ls) = WM_QUIT ->
  message_loop sys fuel ls w = (Exited ls, w, []).
Proof.
  intros E. destruct fuel; cbn [message_loop]; rewrite E; reflexivity.
Qed.

Lemma loop_out_of_fuel (ls : LoopState) (w : World) :
  message (msg ls) <> WM_QUIT ->
  message_loop sys 0 ls w = (OutOfFuel ls, w, []).
Proof.
  intros E. apply Z.eqb_neq in E. cbn [message_loop]. rewrite E. reflexivity.
Qed.

Lemma loop_step (fuel : nat) (ls ls1 : LoopState) (w w1 w2 : World)
    (t1 t2 : list event) (o : outcome) :
  message (msg ls) <> WM_QUIT ->
  iteration sys ls w = (ls1, w1, t1) ->
  message_loop sys fuel ls1 w1 = (o, w2, t2) ->
  message_loop sys (S fuel) ls w = (o, w2, t1 ++ t2).
Proof.
  intros E Hi Hl. apply Z.eqb_neq in E. cbn [message_loop]. rewrite E.
  unfold bind. rewrite Hi, Hl. reflexivity.
Qed.

(** A run with fuel [n + k] is the run with fuel [n], continued with
    fuel [k] where that one stopped for lack of fuel. *)
Lemma loop_split (n k : nat) :
  forall (ls : LoopState) (w : World),
    message_loop sys (n + k) ls w
    = match message_loop sys n ls w with
      | (Exited ls1, w1, t1) => (Exited ls1, w1, t1)
      | (OutOfFuel ls1, w1, t1) =>
          let '(o, w2, t2) := message_loop sys k ls1 w1 in
          (o, w2, t1 ++ t2)
      end.
Proof.
  induction n as [|n IH]; intros ls w.
  - destruct (Z.eq_dec (message (msg ls)) WM_QUIT) as [E|E].
    + rewrite !loop_exit by assumption. reflexivity.
    + rewrite (loop_out_of_fuel ls w E). cbn [Nat.add app].
      destruct (message_loop sys k ls w) as [[o w2] t2]. reflexivity.
  - destruct (Z.eq_dec (message (msg ls)) WM_QUIT) as [E|E].
    + rewrite !loop_exit by assumption. reflexivity.
    + destruct (iteration sys ls w) as [[ls1 w1] t1] eqn:Hi.
      cbn [Nat.add].
      destruct (message_loop sys (n + k) ls1 w1) as [[o w2] t2] eqn:Hl.
      rewrite (loop_step _ _ _ _ _ _ _ _ _ E Hi Hl).
      rewrite IH in Hl.
      destruct (message_loop sys n ls1 w1) as [[o' w'] t'] eqn:Hn.
      rewrite (loop_step _ _ _ _ _ _ _ _ _ E Hi Hn).
      destruct o' as [ls2|ls2].
      * inversion Hl; subst. reflexivity.
      * destruct (message_loop sys k ls2 w') as [[o3 w3] t3].
        inversion Hl; subst. rewrite app_assoc. reflexivity.
Qed.

Lemma deliver_queue (w : World) :
  exists batch, queue (deliver w) = queue w ++ batch.
Proof.
  unfold deliver. destruct (incoming w) as [|b later].
  - exists []. now rewrite app_nil_r.
  - exists b. reflexivity.
Qed.

Lemma deliver_windows (w : World) : windows (deliver w) = windows w.
Proof. unfold deliver. destruct (incoming w); reflexivity. Qed.

(** Draining: with [msgs] at the head of the queue, none of them the
    sentinel, [length msgs] iterations take them off one by one. *)
Lemma loop_drain (msgs : list MSG) :
  forall (rest : list MSG) (ls : LoopState) (w : World),
    not_quit (msg ls) ->
    Forall not_quit msgs ->
    queue w = msgs ++ rest ->
    exists ls1 w1 t extra,
      message_loop sys (length msgs) ls w = (OutOfFuel ls1, w1, t)
      /\ dispatched t = msgs
      /\ translated t = msgs
      /\ retrieved t = msgs
      /\ idle_count t = O
      /\ peeks t = map (fun m => (PM_REMOVE, Some m)) msgs
      /\ queue w1 = rest ++ extra
      /\ windows w1 = windows w
      /\ not_quit (msg ls1).
Proof.
  induction msgs as [|m msgs IH]; intros rest ls w Hls Hall Hq.
  - exists ls, w, [], []. rewrite app_nil_r.
    repeat split; try assumption. now apply loop_out_of_fuel.
  - inversion Hall as [|? ? Hm Hall']; subst.
    destruct (deliver_queue w) as [batch Hd].
    rewrite Hq in Hd. cbn [app] in Hd.
    pose proof (iteration_message ls w m _ Hd) as Hi.
    set (w0 := set_queue (deliver w) ((msgs ++ rest) ++ batch)) in *.
    destruct (dispatch_world_queue w0 m) as [posted Hp].
    destruct (dispatch_world_rest w0 m) as [_ Hw].
    destruct (IH ((rest ++ batch) ++ posted) (mkLoopState (Some true) m)
                (dispatch_world w0 m) Hm Hall')
      as (ls1 & w1 & t & extra & Hl & Hdi & Htr & Hre & Hid & Hpe & Hq1 & Hw1
          & Hn1).
    { rewrite Hp. unfold w0. cbn [queue set_queue].
      now rewrite !app_assoc. }
    destruct (dispatch_events_quiet w0 m) as (Q1 & Q2 & Q3 & Q4 & Q5).
    eexists ls1, w1, _, ((batch ++ posted) ++ extra).
    split; [exact (loop_step _ _ _ _ _ _ _ _ _ Hls Hi Hl)|].
    cbn [app dispatched translated retrieved idle_count peeks length map].
    change (Z.testbit PM_REMOVE 0) with true. cbv iota.
    rewrite dispatched_app, translated_app, retrieved_app, idle_count_app,
      peeks_app, Q1, Q2, Q3, Q4, Q5, Hdi, Htr, Hre, Hid, Hpe, Hq1, Hw1, Hw.
    cbn [app Nat.add]. repeat split.
    + now rewrite !app_assoc.
    + unfold w0. cbn [windows set_queue]. apply deliver_windows.
    + exact Hn1.
Qed.

(** *** The way into the loop *)

Lemma wWinMain_run (hInstance nCmdShow : Z) (fuel : nat) (w w2 : World)
    (o : outcome) (tl : list event) :
  register_result w <> 0 ->
  create_result w <> NULL ->
  message_loop sys fuel (mkLoopState None (primed_msg uninit w)) (primed_world w)
  = (o, w2, tl) ->
  wWinMain sys uninit hInstance nCmdShow fuel w
  = (exit_status o, w2,
     startup_events w nCmdShow
     ++ EvPeekMessage PM_NOREMOVE (hd_error (queue (primed_world w))) :: tl).
Proof.
  intros Hr Hc Hl. apply Z.eqb_neq in Hr, Hc.
  unfold wWinMain, bind, RegisterClassEx, CreateWindowEx, ShowWindow, emit,
    PeekMessage.
  rewrite Hr, Hc. fold (started w). fold (primed_world w).
  unfold primed_msg in Hl.
  destruct (queue (primed_world w)) as [|m q] eqn:Hq; cbn [fst snd];
    change (Z.testbit PM_NOREMOVE 0) with false; cbv iota;
    rewrite Hl; unfold ret; cbn [app hd_error]; rewrite app_nil_r; reflexivity.
Qed.

Lemma primed_world_queue (w : World) :
  exists batch, queue (primed_world w) = queue w ++ batch.
Proof. unfold primed_world. apply (deliver_queue (started w)). Qed.

End Runs.

(** ** Locating an event in a run *)

(** An event that does not occur in [quiet] lies behind it. *)
Lemma split_past (quiet pre post rest : list event) (e : event) :
  pre ++ e :: post = quiet ++ rest ->
  ~ In e quiet ->
  exists pre', pre = quiet ++ pre' /\ rest = pre' ++ e :: post.
Proof.
  revert pre. induction quiet as [|d quiet IH]; intros pre Heq Hn.
  - exists pre. split; [reflexivity | symmetry; exact Heq].
  - destruct pre as [|p pre]; cbn [app] in Heq; inversion Heq; subst.
    + exfalso. apply Hn. now left.
    + destruct (IH pre H1) as (pre' & -> & ->).
      * intros Hin. apply Hn. now right.
      * exists pre'. split; reflexivity.
Qed.

Lemma dispatch_events_in (w : World) (m : MSG) (e : event) :
  In e (dispatch_events w m) ->
  (e = EvPostQuitMessage 0 /\ message m = WM_DESTROY)
  \/ e = EvDefWindowProc (hwnd m) (message m) (wParam m) (lParam m).
Proof.
  unfold dispatch_events, wndproc_events.
  destruct (is_window w (hwnd m)); [|intros []].
  destruct (message m =? WM_DESTROY) eqn:E; cbn [app In].
  - apply Z.eqb_eq in E. intros [<-|[<-|[]]]; [left; split|right]; auto.
  - intros [<-|[]]. now right.
Qed.

Lemma startup_events_in (w : World) (nCmdShow : Z) (e : event) :
  In e (startup_events w nCmdShow) ->
  e = EvRegisterClassEx (register_result w)
  \/ e = EvCreateWindowEx (create_result w)
  \/ e = EvShowWindow (create_result w) nCmdShow.
Proof. cbn [startup_events In]. intuition auto. Qed.

Section LoopFacts.

Variable sys : System.
Variable uninit : MSG.

(** The two shapes of an iteration. *)
Lemma iteration_cases (ls : LoopState) (w : World) :
  (queue (deliver w) = []
   /\ iteration sys ls w
      = (mkLoopState (Some false) (msg ls), deliver w,
         [EvPeekMessage PM_REMOVE None]))
  \/ (exists m rest,
        queue (deliver w) = m :: rest
        /\ iteration sys ls w
           = (mkLoopState (Some true) m,
              dispatch_world (set_queue (deliver w) rest) m,
              EvPeekMessage PM_REMOVE (Some m) :: EvTranslateMessage m
                :: EvDispatchMessage m
                :: dispatch_events (set_queue (deliver w) rest) m)).
Proof.
  destruct (queue (deliver w)) as [|m rest] eqn:E.
  - left. split; [reflexivity | now apply iteration_idle].
  - right. exists m, rest. split; [reflexivity | now apply iteration_message].
Qed.

(** The run of the loop as its first iteration and the rest. *)
Lemma loop_unfold (fuel : nat) (ls : LoopState) (w : World) :
  message (msg ls) <> WM_QUIT ->
  exists ls1 w1 t1 o w2 t2,
    iteration sys ls w = (ls1, w1, t1)
    /\ message_loop sys fuel ls1 w1 = (o, w2, t2)
    /\ message_loop sys (S fuel) ls w = (o, w2, t1 ++ t2).
Proof.
  intros E.
  destruct (iteration sys ls w) as [[ls1 w1] t1] eqn:Hi.
  destruct (message_loop sys fuel ls1 w1) as [[o w2] t2] eqn:Hl.
  exists ls1, w1, t1, o, w2, t2.
  split; [reflexivity | split; [exact Hl |]].
  exact (loop_step sys _ _ _ _ _ _ _ _ _ E Hi Hl).
Qed.

(** Once a poll inside the loop has found the sentinel, the iteration is
    finished (the sentinel is translated and dispatched like any message)
    and the loop is left. *)
Lemma loop_after_sentinel (fuel : nat) :
  forall (ls : LoopState) (w w' : World) (o : outcome) (t : list event)
         (pre post : list event) (flag : Z) (m : MSG),
    message_loop sys fuel ls w = (o, w', t) ->
    t = pre ++ EvPeekMessage flag (Some m) :: post ->
    message m = WM_QUIT ->
    exit_status o = Some 0
    /\ flag = PM_REMOVE
    /\ peeks post = []
    /\ idle_count post = O
    /\ translated post = [m]
    /\ dispatched post = [m].
Proof.
  induction fuel as [|fuel IH]; intros ls w w' o t pre post flag m Hl Ht Hm.
  - exfalso.
    destruct (Z.eq_dec (message (msg ls)) WM_QUIT) as [E|E].
    + rewrite loop_exit in Hl by assumption. inversion Hl; subst.
      now destruct pre.
    + rewrite loop_out_of_fuel in Hl by assumption. inversion Hl; subst.
      now destruct pre.
  - destruct (Z.eq_dec (message (msg ls)) WM_QUIT) as [E|E].
    { exfalso. rewrite loop_exit in Hl by assumption. inversion Hl; subst.
      now destruct pre. }
    destruct (loop_unfold fuel ls w E)
      as (ls1 & w1 & t1 & o2 & w2 & t2 & Hi & Hl2 & Hs).
    rewrite Hs in Hl. injection Hl as -> -> Ht'. rewrite Ht in Ht'.
    clear Hs Ht t.
    destruct (iteration_cases ls w) as [[_ Hc]|(m0 & rest & _ & Hc)];
      rewrite Hc in Hi; injection Hi as <- <- <-; clear Hc.
    + destruct pre as [|p1 pre]; cbn [app] in Ht'; inversion Ht'; subst.
      exact (IH _ _ _ _ _ _ _ _ _ Hl2 eq_refl Hm).
    + destruct pre as [|p1 [|p2 [|p3 pre]]]; cbn [app] in Ht'; inversion Ht';
        subst; clear Ht'.
      * rewrite loop_exit in Hl2 by exact Hm. inversion Hl2; subst.
        rewrite app_nil_r.
        destruct (dispatch_events_quiet (set_queue (deliver w) rest) m)
          as (Q1 & Q2 & Q3 & _ & Q5).
        cbn [peeks idle_count translated dispatched exit_status].
        rewrite Q1, Q2, Q3, Q5. repeat split.
      * match goal with H : _ ++ _ = _ ++ _ :: _ |- _ =>
          symmetry in H;
          destruct (split_past _ _ _ _ _ H) as (pre' & -> & Hr)
        end.
        { intros Hin. apply dispatch_events_in in Hin.
          destruct Hin as [[Hin _]|Hin]; discriminate Hin. }
        exact (IH _ _ _ _ _ _ _ _ _ Hl2 Hr Hm).
Qed.

(** A run that left the loop is the same with more fuel. *)
Lemma loop_exited_more_fuel (n k : nat) (ls ls1 : LoopState) (w w1 : World)
    (t : list event) :
  message_loop sys n ls w = (Exited ls1, w1, t) ->
  message_loop sys (n + k) ls w = (Exited ls1, w1, t).
Proof. intros H. rewrite loop_split, H. reflexivity. Qed.

(** *** Startup failures *)

Lemma wWinMain_register_fails (hInstance nCmdShow : Z) (fuel : nat) (w : World) :
  register_result w = 0 ->
  wWinMain sys uninit hInstance nCmdShow fuel w
  = (Some (-1), w, [EvRegisterClassEx 0]).
Proof.
  intros Hr. unfold wWinMain, bind, RegisterClassEx. rewrite Hr.
  reflexivity.
Qed.

Lemma wWinMain_create_fails (hInstance nCmdShow : Z) (fuel : nat) (w : World) :
  register_result w <> 0 ->
  create_result w = NULL ->
  wWinMain sys uninit hInstance nCmdShow fuel w
  = (Some (-1), w, [EvRegisterClassEx (register_result w); EvCreateWindowEx NULL]).
Proof.
  intros Hr Hc. apply Z.eqb_neq in Hr.
  unfold wWinMain, bind, RegisterClassEx, CreateWindowEx. rewrite Hr, Hc.
  reflexivity.
Qed.

(** The three ways a run of the entry point can go. *)
Lemma wWinMain_cases (hInstance nCmdShow : Z) (fuel : nat) (w : World) :
  (register_result w = 0
   /\ wWinMain sys uninit hInstance nCmdShow fuel w
      = (Some (-1), w, [EvRegisterClassEx 0]))
  \/ (register_result w <> 0 /\ create_result w = NULL
      /\ wWinMain sys uninit hInstance nCmdShow fuel w
         = (Some (-1), w,
            [EvRegisterClassEx (register_result w); EvCreateWindowEx NULL]))
  \/ (register_result w <> 0 /\ create_result w <> NULL
      /\ exists o w2 tl,
           message_loop sys fuel (mkLoopState None (primed_msg uninit w))
             (primed_world w) = (o, w2, tl)
           /\ wWinMain sys uninit hInstance nCmdShow fuel w
              = (exit_status o, w2,
                 startup_events w nCmdShow
                 ++ EvPeekMessage PM_NOREMOVE (hd_error (queue (primed_world w)))
                    :: tl)).
Proof.
  destruct (Z.eq_dec (register_result w) 0) as [Hr|Hr].
  { left. split; [assumption | now apply wWinMain_register_fails]. }
  destruct (Z.eq_dec (create_result w) NULL) as [Hc|Hc].
  { right; left. repeat split; try assumption.
    now apply wWinMain_create_fails. }
  right; right. repeat split; try assumption.
  destruct (message_loop sys fuel (mkLoopState None (primed_msg uninit w))
              (primed_world w)) as [[o w2] tl] eqn:Hl.
  exists o, w2, tl. split; [reflexivity|].
  now apply wWinMain_run.
Qed.

(** *** Idle stretches *)

Lemma idle_run_counts (n : nat) :
  idle_count (idle_run n) = n
  /\ dispatched (idle_run n) = []
  /\ translated (idle_run n) = []
  /\ retrieved (idle_run n) = []
  /\ peeks (idle_run n) = repeat (PM_REMOVE, None) n.
Proof.
  induction n as [|n (I1 & I2 & I3 & I4 & I5)]; [repeat split|].
  cbn [idle_run idle_count dispatched translated retrieved peeks repeat].
  rewrite I1, I2, I3, I4, I5. repeat split.
Qed.

Lemma deliver_nothing (n : nat) (w : World) :
  queue w = [] ->
  nothing_arrives (S n) w ->
  queue (deliver w) = []
  /\ nothing_arrives n (deliver w)
  /\ incoming (deliver w) = tl (incoming w)
  /\ windows (deliver w) = windows w.
Proof.
  unfold nothing_arrives, deliver. intros Hq Hn.
  destruct (incoming w) as [|b later] eqn:Hi.
  - rewrite Hi. cbn [tl]. repeat split; try assumption.
    destruct n; constructor.
  - cbn [firstn] in Hn. inversion Hn; subst.
    cbn [queue incoming windows tl]. rewrite Hq. repeat split. assumption.
Qed.

Lemma loop_idle_run (n : nat) :
  forall (ls : LoopState) (w : World),
    not_quit (msg ls) ->
    queue w = [] ->
    nothing_arrives n w ->
    exists ls1 w1,
      message_loop sys n ls w = (OutOfFuel ls1, w1, idle_run n)
      /\ msg ls1 = msg ls
      /\ queue w1 = []
      /\ incoming w1 = skipn n (incoming w)
      /\ windows w1 = windows w.
Proof.
  induction n as [|n IH]; intros ls w Hls Hq Hn.
  - exists ls, w. repeat split; try assumption. now apply loop_out_of_fuel.
  - destruct (deliver_nothing n w Hq Hn) as (Hq1 & Hn1 & Hi1 & Hw1).
    pose proof (iteration_idle sys ls w Hq1) as Hi.
    destruct (IH (mkLoopState (Some false) (msg ls)) (deliver w) Hls Hq1 Hn1)
      as (ls1 & w1 & Hl & Hm & Hq2 & Hi2 & Hw2).
    exists ls1, w1. split.
    + exact (loop_step sys _ _ _ _ _ _ _ _ _ Hls Hi Hl).
    + rewrite Hm, Hq2, Hi2, Hw2, Hi1, Hw1. repeat split.
      destruct (incoming w); [now destruct n | reflexivity].
Qed.

(** *** Draining up to the sentinel *)

Lemma loop_drain_quit (msgs : list MSG) (q : MSG) (rest : list MSG) (k : nat)
    (ls : LoopState) (w : World) :
  not_quit (msg ls) ->
  Forall not_quit msgs ->
  message q = WM_QUIT ->
  queue w = msgs ++ q :: rest ->
  exists w1 t,
    message_loop sys (S (length msgs) + k) ls w
    = (Exited (mkLoopState (Some true) q), w1, t)
    /\ peeks t = map (fun m => (PM_REMOVE, Some m)) (msgs ++ [q])
    /\ retrieved t = msgs ++ [q]
    /\ translated t = msgs ++ [q]
    /\ dispatched t = msgs ++ [q]
    /\ idle_count t = O.
Proof.
  intros Hls Hall Hm Hq.
  destruct (loop_drain sys msgs (q :: rest) ls w Hls Hall Hq)
    as (ls1 & w1 & t & extra & Hl & Hdi & Htr & Hre & Hid & Hpe & Hq1 & _
        & Hn1).
  destruct (deliver_queue w1) as [batch Hd]. rewrite Hq1 in Hd.
  cbn [app] in Hd.
  pose proof (iteration_message sys ls1 w1 q _ Hd) as Hi.
  set (w0 := set_queue (deliver w1) ((rest ++ extra) ++ batch)) in *.
  assert (Hx : message_loop sys k (mkLoopState (Some true) q)
                 (dispatch_world w0 q)
               = (Exited (mkLoopState (Some true) q), dispatch_world w0 q, []))
    by now apply loop_exit.
  pose proof (loop_step sys _ _ _ _ _ _ _ _ _ Hn1 Hi Hx) as Hs.
  replace (S (length msgs) + k)%nat with (length msgs + S k)%nat by lia.
  rewrite loop_split, Hl, Hs.
  eexists _, _. split; [reflexivity|].
  destruct (dispatch_events_quiet w0 q) as (Q1 & Q2 & Q3 & Q4 & Q5).
  rewrite app_nil_r, peeks_app, retrieved_app, translated_app, dispatched_app,
    idle_count_app, map_app.
  cbn [peeks retrieved translated dispatched idle_count map].
  change (Z.testbit PM_REMOVE 0) with true. cbv iota.
  rewrite Q1, Q2, Q3, Q4, Q5, Hdi, Htr, Hre, Hid, Hpe. repeat split.
Qed.

(** *** Every poll inside the loop removes *)

Lemma loop_peek_flags (fuel : nat) :
  forall (ls : LoopState) (w w' : World) (o : outcome) (t : list event),
    message_loop sys fuel ls w = (o, w', t) ->
    exists n, (n <= fuel)%nat /\ map fst (peeks t) = repeat PM_REMOVE n.
Proof.
  induction fuel as [|fuel IH]; intros ls w w' o t Hl.
  - exists O. split; [lia|].
    destruct (Z.eq_dec (message (msg ls)) WM_QUIT) as [E|E].
    + rewrite loop_exit in Hl by assumption. now inversion Hl.
    + rewrite loop_out_of_fuel in Hl by assumption. now inversion Hl.
  - destruct (Z.eq_dec (message (msg ls)) WM_QUIT) as [E|E].
    { exists O. split; [lia|].
      rewrite loop_exit in Hl by assumption. now inversion Hl. }
    destruct (loop_unfold fuel ls w E)
      as (ls1 & w1 & t1 & o2 & w2 & t2 & Hi & Hl2 & Hs).
    rewrite Hs in Hl. injection Hl as -> -> <-.
    destruct (IH _ _ _ _ _ Hl2) as (n & Hn & Hp).
    exists (S n). split; [lia|].
    rewrite peeks_app, map_app, Hp.
    destruct (iteration_cases ls w) as [[_ Hc]|(m0 & rest & _ & Hc)];
      rewrite Hc in Hi; injection Hi as <- <- <-; [reflexivity|].
    destruct (dispatch_events_quiet (set_queue (deliver w) rest) m0) as (Q1 & _).
    cbn [peeks]. rewrite Q1. reflexivity.
Qed.

(** *** Where PostQuitMessage is called *)

Lemma behind_destroy_cons (e : event) (pre : list event) :
  behind_destroy pre -> behind_destroy (e :: pre).
Proof.
  intros (pre' & m & -> & Hm). exists (e :: pre'), m. split; [reflexivity|assumption].
Qed.

Lemma behind_destroy_app (l pre : list event) :
  behind_destroy pre -> behind_destroy (l ++ pre).
Proof.
  intros H. induction l as [|e l IH]; [assumption|].
  cbn [app]. now apply behind_destroy_cons.
Qed.

Lemma loop_quit_posts (fuel : nat) :
  forall (ls : LoopState) (w w' : World) (o : outcome)
         (pre post : list event) (c : Z),
    message_loop sys fuel ls w = (o, w', pre ++ EvPostQuitMessage c :: post) ->
    c = 0 /\ behind_destroy pre.
Proof.
  induction fuel as [|fuel IH]; intros ls w w' o pre post c Hl.
  - exfalso.
    destruct (Z.eq_dec (message (msg ls)) WM_QUIT) as [E|E].
    + rewrite loop_exit in Hl by assumption. inversion Hl. now destruct pre.
    + rewrite loop_out_of_fuel in Hl by assumption. inversion Hl.
      now destruct pre.
  - destruct (Z.eq_dec (message (msg ls)) WM_QUIT) as [E|E].
    { exfalso. rewrite loop_exit in Hl by assumption. inversion Hl.
      now destruct pre. }
    destruct (loop_unfold fuel ls w E)
      as (ls1 & w1 & t1 & o2 & w2 & t2 & Hi & Hl2 & Hs).
    rewrite Hs in Hl. injection Hl as -> -> Ht. clear Hs.
    destruct (iteration_cases ls w) as [[_ Hc]|(m0 & rest & _ & Hc)];
      rewrite Hc in Hi; injection Hi as <- <- <-; clear Hc.
    + destruct pre as [|p1 pre]; cbn [app] in Ht; inversion Ht; subst.
      destruct (IH _ _ _ _ _ _ _ Hl2) as [-> Hb].
      split; [reflexivity | now apply behind_destroy_cons].
    + destruct pre as [|p1 [|p2 [|p3 pre]]]; cbn [app] in Ht; inversion Ht;
        subst; clear Ht.
      rename H3 into Ht.
      unfold dispatch_events, wndproc_events in Ht.
      destruct (is_window _ (hwnd m0)).
      * destruct (message m0 =? WM_DESTROY) eqn:Ed; cbn [app] in Ht.
        -- apply Z.eqb_eq in Ed.
           destruct pre as [|p4 [|p5 pre]]; inversion Ht; subst.
           ++ split; [reflexivity|].
              exists [EvPeekMessage PM_REMOVE (Some m0); EvTranslateMessage m0], m0.
              split; [reflexivity | assumption].
           ++ destruct (IH _ _ _ _ _ _ _ Hl2) as [-> Hb].
              split; [reflexivity | now do 5 apply behind_destroy_cons].
        -- destruct pre as [|p4 pre]; inversion Ht; subst.
           destruct (IH _ _ _ _ _ _ _ Hl2) as [-> Hb].
           split; [reflexivity | now do 4 apply behind_destroy_cons].
      * cbn [app] in Ht. subst t2.
        destruct (IH _ _ _ _ _ _ _ Hl2) as [-> Hb].
        split; [reflexivity | now do 3 apply behind_destroy_cons].
Qed.

(** *** The hooks *)

Lemma dispatch_events_no_hook (w : World) (m : MSG) :
  hook_calls (dispatch_events w m) = [].
Proof.
  unfold dispatch_events, wndproc_events.
  destruct (is_window w (hwnd m)); [|reflexivity].
  destruct (message m =? WM_DESTROY); reflexivity.
Qed.

(** No iteration of the loop calls a hook. *)
Lemma loop_no_hook_calls (fuel : nat) :
  forall (ls : LoopState) (w w' : World) (o : outcome) (t : list event),
    message_loop sys fuel ls w = (o, w', t) -> hook_calls t = [].
Proof.
  induction fuel as [|fuel IH]; intros ls w w' o t Hl.
  - destruct (Z.eq_dec (message (msg ls)) WM_QUIT) as [E|E].
    + rewrite loop_exit in Hl by assumption. now inversion Hl.
    + rewrite loop_out_of_fuel in Hl by assumption. now inversion Hl.
  - destruct (Z.eq_dec (message (msg ls)) WM_QUIT) as [E|E].
    { rewrite loop_exit in Hl by assumption. now inversion Hl. }
    destruct (loop_unfold fuel ls w E)
      as (ls1 & w1 & t1 & o2 & w2 & t2 & Hi & Hl2 & Hs).
    rewrite Hs in Hl. injection Hl as -> -> <-.
    rewrite hook_calls_app, (IH _ _ _ _ _ Hl2), app_nil_r.
    destruct (iteration_cases ls w) as [[_ Hc]|(m0 & rest & _ & Hc)];
      rewrite Hc in Hi; injection Hi as <- <- <-; [reflexivity|].
    cbn [hook_calls]. apply dispatch_events_no_hook.
Qed.

End LoopFacts.

(** * The properties of the specification *)

Section Claims.

Variable sys : System.
Variable uninit : MSG.


(** C2.  In every run of the entry point, a poll that finds WM_QUIT ends
    the loop: the run returns 0, nothing is polled and no idle pass is
    made after that poll.  Either it was the priming poll and nothing at
    all follows, or it was a poll of the loop, whose iteration is finished
    (the sentinel is translated and dispatched) before the loop is left.
    What happened before the poll does not matter, and more fuel does not
    change the run. *)
Theorem C2_sentinel_ends_the_run
    (hInstance nCmdShow : Z) (fuel : nat) (w w' : World) (r : option Z)
    (t pre post : list event) (flag : Z) (m : MSG) :
  wWinMain sys uninit hInstance nCmdShow fuel w = (r, w', t) ->
  t = pre ++ EvPeekMessage flag (Some m) :: post ->
  message m = WM_QUIT ->
  r = Some 0
  /\ peeks post = []
  /\ idle_count post = O
  /\ ((flag = PM_NOREMOVE /\ post = [])
      \/ (flag = PM_REMOVE /\ translated post = [m] /\ dispatched post = [m]))
  /\ forall k,
       wWinMain sys uninit hInstance nCmdShow (fuel + k) w = (r, w', t).
Proof.
  intros Hrun Ht Hm.
  destruct (wWinMain_cases sys uninit hInstance nCmdShow fuel w)
    as [[_ Hc]|[(_ & _ & Hc)|(Hr & Hc & o & w2 & tl & Hl & Hw)]].
  - exfalso. rewrite Hc in Hrun. injection Hrun as _ _ <-.
    destruct pre as [|? [|? ?]]; discriminate Ht.
  - exfalso. rewrite Hc in Hrun. injection Hrun as _ _ <-.
    destruct pre as [|? [|? [|? ?]]]; discriminate Ht.
  - rewrite Hw in Hrun. injection Hrun as <- <- <-.
    symmetry in Ht.
    destruct (split_past (startup_events w nCmdShow) pre post
                (EvPeekMessage PM_NOREMOVE (hd_error (queue (primed_world w)))
                 :: tl) _ Ht) as (pre' & -> & Hrest).
    { intros Hin. apply startup_events_in in Hin.
      destruct Hin as [Hin|[Hin|Hin]]; discriminate Hin. }
    destruct pre' as [|p pre']; cbn [app] in Hrest.
    + injection Hrest as <- Hhd <-.
      assert (Hp : primed_msg uninit w = m).
      { unfold primed_msg. destruct (queue (primed_world w)); [discriminate|].
        now injection Hhd. }
      rewrite Hp in Hl.
      pose proof (loop_exit sys fuel (mkLoopState None m) (primed_world w) Hm)
        as Hx.
      rewrite Hx in Hl. injection Hl as <- <- <-.
      repeat split; [left; split; reflexivity|].
      intros k.
      apply wWinMain_run; try assumption.
      rewrite Hp. now apply loop_exit.
    + injection Hrest as _ Htl.
      destruct (loop_after_sentinel sys fuel _ _ _ _ _ _ _ _ _ Hl Htl Hm)
        as (Ho & Hf & Hpk & Hid & Htr & Hdi).
      rewrite Ho. repeat split; try assumption.
      * right. repeat split; assumption.
      * intros k. destruct o as [lsx|lsx]; [|discriminate Ho].
        rewrite <- Ho. change (Some 0) with (exit_status (Exited lsx)).
        apply wWinMain_run; try assumption.
        now apply loop_exited_more_fuel.
Qed.

(** C3, as the program has it.  With exactly [A; B; Q] pending, [A] and
    [B] not WM_QUIT and [Q] a WM_QUIT message, every run with fuel for
    three iterations returns 0 without an idle pass after three
    iterations: [A] and [B] are retrieved, translated and dispatched in
    that order, and then the sentinel, taken off the queue by the third
    poll, is handed to TranslateMessage and DispatchMessage as well.
    TranslateMessage and DispatchMessage are each called three times,
    twice for a message other than the sentinel. *)
Theorem C3_two_messages_then_sentinel
    (hInstance nCmdShow : Z) (k : nat) (w : World) (A B Q : MSG) :
  register_result w <> 0 ->
  create_result w <> NULL ->
  queue w = [A; B; Q] ->
  not_quit A ->
  not_quit B ->
  message Q = WM_QUIT ->
  exists w' t,
    wWinMain sys uninit hInstance nCmdShow (3 + k) w = (Some 0, w', t)
    /\ peeks t = [(PM_NOREMOVE, Some A); (PM_REMOVE, Some A);
                  (PM_REMOVE, Some B); (PM_REMOVE, Some Q)]
    /\ retrieved t = [A; B; Q]
    /\ translated t = [A; B; Q]
    /\ dispatched t = [A; B; Q]
    /\ filter (fun m => negb (is_quit m)) (dispatched t) = [A; B]
    /\ length (dispatched t) = 3%nat
    /\ idle_count t = O.
Proof.
  intros Hr Hc Hq HA HB HQ.
  destruct (primed_world_queue w) as [batch Hb]. rewrite Hq in Hb.
  cbn [app] in Hb.
  assert (Hp : primed_msg uninit w = A).
  { unfold primed_msg. now rewrite Hb. }
  destruct (loop_drain_quit sys [A; B] Q batch k
              (mkLoopState None (primed_msg uninit w)) (primed_world w))
    as (w1 & t & Hl & Hpe & Hre & Htr & Hdi & Hid);
    [cbn [msg]; now rewrite Hp | now repeat constructor | assumption
     | exact Hb |].
  exists w1, (startup_events w nCmdShow
              ++ EvPeekMessage PM_NOREMOVE (hd_error (queue (primed_world w)))
                 :: t).
  split.
  - change (Some 0) with (exit_status (Exited (mkLoopState (Some true) Q))).
    now apply wWinMain_run.
  - rewrite peeks_app, retrieved_app, translated_app, dispatched_app,
      idle_count_app.
    cbn [startup_events peeks retrieved translated dispatched idle_count app
         Nat.add].
    rewrite Hpe, Hre, Htr, Hdi, Hid, Hb. cbn [app map hd_error filter length].
    change (Z.testbit PM_NOREMOVE 0) with false. cbv iota.
    unfold is_quit. rewrite HQ.
    apply Z.eqb_neq in HA, HB. rewrite HA, HB.
    repeat split.
Qed.

(** C4, as the program has it.  An iteration that finds the queue empty
    passes through the [else] branch once and invokes no hook: its only
    call is the poll, the MSG local keeps its contents and nothing is
    dispatched.  And when nothing is pending at the start, the priming
    poll and the next [n] polls find nothing and the poll after that finds
    a WM_QUIT message [q], the run returns 0 after exactly [n] such idle
    passes, all of them before [q] is retrieved, and without a single
    call of the update, render or present hook. *)
Theorem C4_idle_pass_invokes_no_hook
    (hInstance nCmdShow : Z) (n k : nat) (w : World) (ls : LoopState)
    (q : MSG) (more : list MSG) (later : list (list MSG)) :
  (queue (deliver w) = [] ->
   exists ls1 w1 t,
     iteration sys ls w = (ls1, w1, t)
     /\ t = [EvPeekMessage PM_REMOVE None]
     /\ ls1 = mkLoopState (Some false) (msg ls)
     /\ w1 = deliver w
     /\ idle_count t = 1%nat
     /\ hook_calls t = []
     /\ dispatched t = [])
  /\ (register_result w <> 0 ->
      create_result w <> NULL ->
      queue w = [] ->
      incoming w = repeat [] (S n) ++ (q :: more) :: later ->
      message q = WM_QUIT ->
      exists w' t,
        wWinMain sys uninit hInstance nCmdShow (S n + k) w = (Some 0, w', t)
        /\ t = startup_events w nCmdShow
               ++ EvPeekMessage PM_NOREMOVE None :: idle_run n
               ++ [EvPeekMessage PM_REMOVE (Some q); EvTranslateMessage q;
                   EvDispatchMessage q]
               ++ dispatch_events w' q
        /\ idle_count t = n
        /\ hook_calls t = []
        /\ dispatched t = [q]).
Proof.
  split.
  - intros Hq. eexists _, _, _. split; [now apply iteration_idle|].
    repeat split.
  - intros Hr Hc Hq Hi Hm.
    assert (Hpq : queue (primed_world w) = []
                  /\ incoming (primed_world w)
                     = repeat [] n ++ (q :: more) :: later
                  /\ windows (primed_world w) = create_result w :: windows w).
    { unfold primed_world, started, deliver.
      cbn [incoming queue add_window windows]. rewrite Hi, Hq. repeat split. }
    destruct Hpq as (Hpq & Hpi & Hpw).
    assert (Hp : primed_msg uninit w = set_message uninit WM_NULL).
    { unfold primed_msg. now rewrite Hpq. }
    destruct (loop_idle_run sys n
                (mkLoopState None (primed_msg uninit w)) (primed_world w))
      as (ls1 & w1 & Hl & Hm1 & Hq1 & Hi1 & Hw1).
    { cbn [msg]. rewrite Hp. unfold not_quit. cbn. discriminate. }
    { exact Hpq. }
    { unfold nothing_arrives. rewrite Hpi.
      rewrite firstn_app, firstn_all2 by (rewrite repeat_length; lia).
      rewrite repeat_length, Nat.sub_diag. cbn [firstn]. rewrite app_nil_r.
      apply Forall_forall. intros x Hx. now apply repeat_spec in Hx. }
    rewrite Hpi in Hi1.
    rewrite skipn_app, skipn_all2 in Hi1 by (rewrite repeat_length; lia).
    rewrite repeat_length, Nat.sub_diag in Hi1. cbn [skipn app] in Hi1.
    assert (Hd : queue (deliver w1) = q :: more).
    { unfold deliver. rewrite Hi1, Hq1. reflexivity. }
    pose proof (iteration_message sys ls1 w1 q more Hd) as Hit.
    set (w0 := set_queue (deliver w1) more) in *.
    assert (Hx : message_loop sys k (mkLoopState (Some true) q)
                   (dispatch_world w0 q)
                 = (Exited (mkLoopState (Some true) q), dispatch_world w0 q, []))
      by now apply loop_exit.
    assert (Hn1 : not_quit (msg ls1)).
    { rewrite Hm1. cbn [msg]. rewrite Hp. unfold not_quit. cbn. discriminate. }
    pose proof (loop_step sys _ _ _ _ _ _ _ _ _ Hn1 Hit Hx) as Hs.
    pose proof (loop_split sys n (S k)
                  (mkLoopState None (primed_msg uninit w)) (primed_world w))
      as Hsp.
    rewrite Hl, Hs in Hsp.
    replace (n + S k)%nat with (S n + k)%nat in Hsp by lia.
    pose proof (loop_no_hook_calls sys _ _ _ _ _ _ Hsp) as Hhook.
    pose proof (wWinMain_run sys uninit hInstance nCmdShow _ w _ _ _
                  Hr Hc Hsp) as Hrun.
    cbn [exit_status] in Hrun. rewrite Hpq in Hrun. cbn [hd_error] in Hrun.
    assert (Hde : dispatch_events (dispatch_world w0 q) q = dispatch_events w0 q).
    { unfold dispatch_events, is_window.
      destruct (dispatch_world_rest w0 q) as [_ ->]. reflexivity. }
    eexists _, _. split; [exact Hrun|].
    rewrite Hde, app_nil_r. split; [reflexivity|].
    rewrite app_nil_r in Hhook.
    destruct (idle_run_counts n) as (I1 & I2 & _).
    destruct (dispatch_events_quiet w0 q) as (_ & Q2 & _ & _ & Q5).
    rewrite !idle_count_app, !dispatched_app, hook_calls_app.
    cbn [startup_events idle_count dispatched hook_calls app Nat.add].
    change (Z.testbit PM_NOREMOVE 0) with false. cbv iota.
    rewrite !idle_count_app, !dispatched_app.
    cbn [idle_count dispatched app Nat.add].
    rewrite I1, I2, Q2, Q5. split; [lia|]. split; [exact Hhook | reflexivity].
Qed.

(** C5, as the program has it.  Every iteration polls once and then takes
    exactly one branch, and neither branch calls a hook.  If the poll
    found a message [m], the iteration translates and dispatches [m] and
    makes no idle pass; if it found none, the iteration passes through the
    [else] branch, which does nothing: the poll is its only call, the MSG
    local keeps its contents, and nothing is translated or dispatched.  In
    both cases control returns to the loop condition: a run of the loop is
    this iteration followed by the run from the state it leaves. *)
Theorem C5_one_branch_per_iteration (ls : LoopState) (w : World) :
  exists ls1 w1 t,
    iteration sys ls w = (ls1, w1, t)
    /\ length (peeks t) = 1%nat
    /\ hook_calls t = []
    /\ ((exists m rest,
           queue (deliver w) = m :: rest
           /\ ls1 = mkLoopState (Some true) m
           /\ peeks t = [(PM_REMOVE, Some m)]
           /\ translated t = [m]
           /\ dispatched t = [m]
           /\ idle_count t = O)
        \/ (queue (deliver w) = []
            /\ ls1 = mkLoopState (Some false) (msg ls)
            /\ w1 = deliver w
            /\ t = [EvPeekMessage PM_REMOVE None]
            /\ translated t = []
            /\ dispatched t = []
            /\ idle_count t = 1%nat))
    /\ forall fuel,
         message (msg ls) <> WM_QUIT ->
         message_loop sys (S fuel) ls w
         = let '(o, w2, t2) := message_loop sys fuel ls1 w1 in
           (o, w2, t ++ t2).
Proof.
  destruct (iteration sys ls w) as [[ls1 w1] t] eqn:Hi.
  exists ls1, w1, t. split; [reflexivity|].
  assert (Hcont : forall fuel,
             message (msg ls) <> WM_QUIT ->
             message_loop sys (S fuel) ls w
             = let '(o, w2, t2) := message_loop sys fuel ls1 w1 in
               (o, w2, t ++ t2)).
  { intros fuel E.
    destruct (message_loop sys fuel ls1 w1) as [[o w2] t2] eqn:Hl.
    exact (loop_step sys _ _ _ _ _ _ _ _ _ E Hi Hl). }
  destruct (iteration_cases sys ls w) as [[Hq Hc]|(m & rest & Hq & Hc)];
    rewrite Hc in Hi; injection Hi as <- <- <-.
  - repeat split; [|exact Hcont].
    right. repeat split. exact Hq.
  - destruct (dispatch_events_quiet (set_queue (deliver w) rest) m)
      as (Q1 & Q2 & Q3 & _ & Q5).
    cbn [peeks translated dispatched idle_count hook_calls].
    rewrite Q1, Q2, Q3, Q5, dispatch_events_no_hook.
    repeat split; [|exact Hcont].
    left. exists m, rest. repeat split. exact Hq.
Qed.

(** C6.  When RegisterClassEx answers 0, or CreateWindowEx answers NULL,
    the entry point returns -1 after that one call: the trace holds a
    single registration (and a single creation attempt in the second
    case) and no poll, translation, dispatch or idle pass; the world is
    left as it was. *)
Theorem C6_startup_failure_returns_minus_one
    (hInstance nCmdShow : Z) (fuel : nat) (w : World) :
  register_result w = 0 \/ create_result w = NULL ->
  exists t,
    wWinMain sys uninit hInstance nCmdShow fuel w = (Some (-1), w, t)
    /\ (t = [EvRegisterClassEx 0]
        \/ t = [EvRegisterClassEx (register_result w); EvCreateWindowEx NULL])
    /\ peeks t = []
    /\ translated t = []
    /\ dispatched t = []
    /\ idle_count t = O.
Proof.
  intros H.
  destruct (Z.eq_dec (register_result w) 0) as [Hr|Hr].
  - exists [EvRegisterClassEx 0]. split.
    + now apply wWinMain_register_fails.
    + repeat split. now left.
  - destruct H as [H|Hc]; [contradiction|].
    exists [EvRegisterClassEx (register_result w); EvCreateWindowEx NULL]. split.
    + now apply wWinMain_create_fails.
    + repeat split. now right.
Qed.

(** C7.  The program retrieves messages through PeekMessage only.  In
    every run the polls are: none at all (startup failed), or the priming
    poll with PM_NOREMOVE followed by one PM_REMOVE poll per iteration.
    An iteration always completes, whether it found a message or not; and
    when the queue is empty and nothing ever arrives the loop still
    performs every iteration the fuel allows, each one an idle
    iteration. *)
Theorem C7_polls_never_wait
    (hInstance nCmdShow : Z) (fuel : nat) (w : World) (ls : LoopState) :
  (exists r w' t,
     wWinMain sys uninit hInstance nCmdShow fuel w = (r, w', t)
     /\ (map fst (peeks t) = []
         \/ exists n, (n <= fuel)%nat
                      /\ map fst (peeks t) = PM_NOREMOVE :: repeat PM_REMOVE n))
  /\ (exists ls1 w1 t found,
        iteration sys ls w = (ls1, w1, t)
        /\ peeks t = [(PM_REMOVE, found)]
        /\ bGotMsg ls1 = Some (match found with Some _ => true | None => false end))
  /\ (register_result w <> 0 ->
      create_result w <> NULL ->
      queue w = [] ->
      incoming w = [] ->
      exists w',
        wWinMain sys uninit hInstance nCmdShow fuel w
        = (None, w',
           startup_events w nCmdShow
           ++ EvPeekMessage PM_NOREMOVE None :: idle_run fuel)).
Proof.
  split; [|split].
  - destruct (wWinMain_cases sys uninit hInstance nCmdShow fuel w)
      as [[_ Hc]|[(_ & _ & Hc)|(Hr & Hc & o & w2 & tl & Hl & Hw)]].
    + eexists _, _, _. split; [exact Hc|]. now left.
    + eexists _, _, _. split; [exact Hc|]. now left.
    + eexists _, _, _. split; [exact Hw|]. right.
      destruct (loop_peek_flags sys fuel _ _ _ _ _ Hl) as (n & Hn & Hp).
      exists n. split; [assumption|].
      rewrite peeks_app. cbn [startup_events peeks app map fst].
      now rewrite Hp.
  - destruct (iteration_cases sys ls w) as [[_ Hc]|(m & rest & _ & Hc)].
    + eexists _, _, _, None. split; [exact Hc|]. split; reflexivity.
    + eexists _, _, _, (Some m). split; [exact Hc|].
      destruct (dispatch_events_quiet (set_queue (deliver w) rest) m) as (Q1 & _).
      cbn [peeks bGotMsg]. rewrite Q1. split; reflexivity.
  - intros Hr Hc Hq Hi.
    assert (Hpw : primed_world w = started w).
    { unfold primed_world, deliver, started. cbn [incoming add_window].
      now rewrite Hi. }
    assert (Hpq : queue (primed_world w) = []).
    { rewrite Hpw. exact Hq. }
    assert (Hp : primed_msg uninit w = set_message uninit WM_NULL).
    { unfold primed_msg. now rewrite Hpq. }
    destruct (loop_idle_run sys fuel
                (mkLoopState None (primed_msg uninit w)) (primed_world w))
      as (ls1 & w1 & Hl & _).
    { cbn [msg]. rewrite Hp. unfold not_quit. cbn. discriminate. }
    { exact Hpq. }
    { unfold nothing_arrives. rewrite Hpw. cbn [started add_window incoming].
      rewrite Hi. destruct fuel; constructor. }
    exists w1.
    pose proof (wWinMain_run sys uninit hInstance nCmdShow _ w _ _ _
                  Hr Hc Hl) as Hrun.
    rewrite Hpq in Hrun. exact Hrun.
Qed.

(** C9.  WndProc returns what DefWindowProc returns for the same four
    arguments.  For WM_DESTROY it calls PostQuitMessage(0) first, which
    queues the sentinel with exit code 0; for every other message it
    leaves the world as it was.  In a whole run of the entry point every
    call of PostQuitMessage has exit code 0 and comes directly behind the
    dispatch of a WM_DESTROY message, that is, from this case of the
    window procedure. *)
Theorem C9_WndProc_defers_to_DefWindowProc
    (hwnd uMsg wParam lParam : Z) (w : World) :
  (exists w' t,
     WndProc sys hwnd uMsg wParam lParam w
     = (def_proc sys hwnd uMsg wParam lParam, w', t)
     /\ DefWindowProc sys hwnd uMsg wParam lParam w'
        = (def_proc sys hwnd uMsg wParam lParam, w',
           [EvDefWindowProc hwnd uMsg wParam lParam])
     /\ (if uMsg =? WM_DESTROY
         then t = [EvPostQuitMessage 0; EvDefWindowProc hwnd uMsg wParam lParam]
              /\ queue w' = queue w ++ [quit_message 0]
              /\ quit_message 0 = mkMSG NULL WM_QUIT 0 0 0 (0, 0)
         else t = [EvDefWindowProc hwnd uMsg wParam lParam] /\ w' = w))
  /\ (forall hInstance nCmdShow fuel r w' pre post c,
        wWinMain sys uninit hInstance nCmdShow fuel w
        = (r, w', pre ++ EvPostQuitMessage c :: post) ->
        c = 0
        /\ exists pre' m,
             pre = pre' ++ [EvDispatchMessage m] /\ message m = WM_DESTROY).
Proof.
  split.
  - rewrite WndProc_run. eexists _, _. split; [reflexivity|].
    split; [reflexivity|].
    unfold wndproc_events, wndproc_world.
    destruct (uMsg =? WM_DESTROY); repeat split.
  - intros hInstance nCmdShow fuel r w' pre post c Hrun.
    destruct (wWinMain_cases sys uninit hInstance nCmdShow fuel w)
      as [[_ Hc]|[(_ & _ & Hc)|(Hr & Hc & o & w2 & tl & Hl & Hw)]].
    + exfalso. rewrite Hc in Hrun. injection Hrun as _ _ Ht.
      destruct pre as [|? [|? ?]]; discriminate Ht.
    + exfalso. rewrite Hc in Hrun. injection Hrun as _ _ Ht.
      destruct pre as [|? [|? [|? ?]]]; discriminate Ht.
    + rewrite Hw in Hrun. injection Hrun as _ _ Ht.
      symmetry in Ht.
      destruct (split_past (startup_events w nCmdShow) pre post
                  (EvPeekMessage PM_NOREMOVE (hd_error (queue (primed_world w)))
                   :: tl) _ Ht) as (pre' & -> & Hrest).
      { intros Hin. apply startup_events_in in Hin.
        destruct Hin as [Hin|[Hin|Hin]]; discriminate Hin. }
      destruct pre' as [|p pre']; [discriminate Hrest|].
      injection Hrest as _ Htl. rewrite Htl in Hl.
      destruct (loop_quit_posts sys fuel _ _ _ _ _ _ _ Hl) as [-> Hb].
      split; [reflexivity|].
      apply (behind_destroy_app (startup_events w nCmdShow ++ [p])) in Hb.
      rewrite <- app_assoc in Hb. exact Hb.
Qed.

(** C10.  Let the priming poll look at the queue.  If it finds a WM_QUIT
    message, the body of the loop never runs: the run returns 0 with any
    fuel, its trace ends with the priming poll (no removing poll, no
    translation, no dispatch, no idle pass), and the sentinel is still at
    the head of the queue.  If it finds nothing, the MSG local still holds
    WM_NULL from its initialisation, so the loop is entered: with fuel for
    one iteration the trace goes on with a first iteration.  (So it does
    when the poll finds a message other than WM_QUIT.) *)
Theorem C10_priming_poll (hInstance nCmdShow : Z) (fuel : nat) (w : World) :
  register_result w <> 0 ->
  create_result w <> NULL ->
  match hd_error (queue (primed_world w)) with
  | Some m =>
      if is_quit m
      then exists t,
             wWinMain sys uninit hInstance nCmdShow fuel w
             = (Some 0, primed_world w, t)
             /\ t = startup_events w nCmdShow
                    ++ [EvPeekMessage PM_NOREMOVE (Some m)]
             /\ retrieved t = []
             /\ translated t = []
             /\ dispatched t = []
             /\ idle_count t = O
             /\ hd_error (queue (primed_world w)) = Some m
      else enters_loop sys uninit hInstance nCmdShow fuel w m
  | None =>
      message (set_message uninit WM_NULL) = WM_NULL
      /\ enters_loop sys uninit hInstance nCmdShow fuel w
           (set_message uninit WM_NULL)
  end.
Proof.
  intros Hr Hc.
  assert (Henter : forall m0,
             primed_msg uninit w = m0 -> message m0 <> WM_QUIT ->
             enters_loop sys uninit hInstance nCmdShow fuel w m0).
  { intros m0 Hp Hm0.
    destruct (loop_unfold sys fuel
                (mkLoopState None (primed_msg uninit w)) (primed_world w))
      as (ls1 & w1 & t1 & o & w2 & t2 & Hi & Hl & Hs).
    { now rewrite Hp. }
    exists ls1, w1, t1, (exit_status o), w2, t2.
    rewrite <- Hp. split; [exact Hi|].
    now apply wWinMain_run. }
  unfold primed_msg in Henter.
  destruct (queue (primed_world w)) as [|m rest] eqn:Hq; cbn [hd_error].
  - split; [reflexivity|]. apply Henter; [reflexivity|]. cbn. discriminate.
  - unfold is_quit. destruct (message m =? WM_QUIT) eqn:Hm.
    + apply Z.eqb_eq in Hm.
      assert (Hp : primed_msg uninit w = m).
      { unfold primed_msg. now rewrite Hq. }
      pose proof (loop_exit sys fuel
                    (mkLoopState None (primed_msg uninit w)) (primed_world w))
        as Hx.
      cbn [msg] in Hx. rewrite Hp in Hx. specialize (Hx Hm).
      rewrite <- Hp in Hx.
      pose proof (wWinMain_run sys uninit hInstance nCmdShow _ w _ _ _
                    Hr Hc Hx) as Hrun.
      rewrite Hq in Hrun. cbn [hd_error exit_status] in Hrun.
      eexists. split; [exact Hrun|]. repeat split.
    + apply Z.eqb_neq in Hm. now apply Henter.
Qed.

End Claims.

(** * The properties on sample runs *)

(** Two messages and the sentinel: three iterations, three dispatches. *)
Example sample_ABQ_trace :
  sample_ABQ_run
  = (Some 0,
     mkWorld [] [] 49217 sample_hwnd [sample_hwnd],
     [EvRegisterClassEx 49217; EvCreateWindowEx sample_hwnd;
      EvShowWindow sample_hwnd 1;
      EvPeekMessage PM_NOREMOVE (Some sample_A);
      EvPeekMessage PM_REMOVE (Some sample_A);
      EvTranslateMessage sample_A; EvDispatchMessage sample_A;
      EvDefWindowProc sample_hwnd WM_MOUSEMOVE 0 6553700;
      EvPeekMessage PM_REMOVE (Some sample_B);
      EvTranslateMessage sample_B; EvDispatchMessage sample_B;
      EvDefWindowProc sample_hwnd WM_PAINT 0 0;
      EvPeekMessage PM_REMOVE (Some (quit_message 0));
      EvTranslateMessage (quit_message 0);
      EvDispatchMessage (quit_message 0)]).
Proof. reflexivity. Qed.

(** WM_DESTROY makes the window procedure post the sentinel, which the
    next iteration retrieves. *)
Example sample_destroy_trace :
  sample_destroy_run
  = (Some 0,
     mkWorld [] [] 49217 sample_hwnd [sample_hwnd],
     [EvRegisterClassEx 49217; EvCreateWindowEx sample_hwnd;
      EvShowWindow sample_hwnd 1;
      EvPeekMessage PM_NOREMOVE (Some sample_destroy);
      EvPeekMessage PM_REMOVE (Some sample_destroy);
      EvTranslateMessage sample_destroy; EvDispatchMessage sample_destroy;
      EvPostQuitMessage 0;
      EvDefWindowProc sample_hwnd WM_DESTROY 0 0;
      EvPeekMessage PM_REMOVE (Some (quit_message 0));
      EvTranslateMessage (quit_message 0);
      EvDispatchMessage (quit_message 0)]).
Proof. reflexivity. Qed.

(** Nothing pending and nothing arriving: the loop idles while the fuel
    lasts. *)
Example sample_idle_trace :
  wWinMain sample_sys sample_uninit 0 1 2 (sample_world [] [])
  = (None,
     mkWorld [] [] 49217 sample_hwnd [sample_hwnd],
     [EvRegisterClassEx 49217; EvCreateWindowEx sample_hwnd;
      EvShowWindow sample_hwnd 1;
      EvPeekMessage PM_NOREMOVE None;
      EvPeekMessage PM_REMOVE None;
      EvPeekMessage PM_REMOVE None]).
Proof. reflexivity. Qed.

(** Registration fails: nothing but the one call. *)
Example sample_register_failure :
  wWinMain sample_sys sample_uninit 0 1 2 (mkWorld [sample_A] [] 0 sample_hwnd [])
  = (Some (-1), mkWorld [sample_A] [] 0 sample_hwnd [], [EvRegisterClassEx 0]).
Proof. reflexivity. Qed.


Lemma C2_sentinel_witness :
  fst (fst sample_quit_run) = Some 0
  /\ peeks (skipn 9 (snd sample_quit_run)) = []
  /\ idle_count (skipn 9 (snd sample_quit_run)) = O
  /\ ((PM_REMOVE = PM_NOREMOVE /\ skipn 9 (snd sample_quit_run) = [])
      \/ (PM_REMOVE = PM_REMOVE
          /\ translated (skipn 9 (snd sample_quit_run)) = [quit_message 0]
          /\ dispatched (skipn 9 (snd sample_quit_run)) = [quit_message 0]))
  /\ forall k,
       wWinMain sample_sys sample_uninit 0 1 (5 + k)
         (sample_world [sample_A; quit_message 0] [])
       = (fst (fst sample_quit_run), snd (fst sample_quit_run),
          snd sample_quit_run).
Proof.
  apply (C2_sentinel_ends_the_run sample_sys sample_uninit 0 1 5
           (sample_world [sample_A; quit_message 0] [])
           (snd (fst sample_quit_run)) (fst (fst sample_quit_run))
           (snd sample_quit_run)
           (firstn 8 (snd sample_quit_run)) (skipn 9 (snd sample_quit_run))
           PM_REMOVE (quit_message 0)).
  - vm_compute. reflexivity.
  - vm_compute. reflexivity.
  - reflexivity.
Defined.

(** C3, as the specification has it: a run with [A; B; WM_QUIT] pending
    would call DispatchMessage twice.  The run on the sample messages
    returns 0 after three calls: the third one dispatches the sentinel. *)
Lemma C3_dispatch_count_counterexample :
  fst (fst sample_ABQ_run) = Some 0
  /\ dispatched (snd sample_ABQ_run) = [sample_A; sample_B; quit_message 0]
  /\ length (dispatched (snd sample_ABQ_run)) <> 2%nat.
Proof.
  split; [|split]; vm_compute; [reflexivity | reflexivity | discriminate].
Qed.

Lemma C3_two_messages_witness :
  exists w' t,
    wWinMain sample_sys sample_uninit 0 1 (3 + 0)
      (sample_world [sample_A; sample_B; quit_message 0] [[sample_B]])
    = (Some 0, w', t)
    /\ peeks t = [(PM_NOREMOVE, Some sample_A); (PM_REMOVE, Some sample_A);
                  (PM_REMOVE, Some sample_B); (PM_REMOVE, Some (quit_message 0))]
    /\ retrieved t = [sample_A; sample_B; quit_message 0]
    /\ translated t = [sample_A; sample_B; quit_message 0]
    /\ dispatched t = [sample_A; sample_B; quit_message 0]
    /\ filter (fun m => negb (is_quit m)) (dispatched t) = [sample_A; sample_B]
    /\ length (dispatched t) = 3%nat
    /\ idle_count t = O.
Proof.
  apply (C3_two_messages_then_sentinel sample_sys sample_uninit 0 1 0
           (sample_world [sample_A; sample_B; quit_message 0] [[sample_B]])
           sample_A sample_B (quit_message 0)); by_computation.
Defined.

(** C4, as the specification has it: the update / render / present hook
    would be invoked once per empty poll, twice in this run.  The run
    makes two idle passes and returns 0, and calls no hook at all. *)
Lemma C4_hook_counterexample :
  fst (fst sample_idle_quit_run) = Some 0
  /\ peeks (snd sample_idle_quit_run)
     = [(PM_NOREMOVE, None); (PM_REMOVE, None); (PM_REMOVE, None);
        (PM_REMOVE, Some (quit_message 0))]
  /\ hook_calls (snd sample_idle_quit_run) = []
  /\ length (hook_calls (snd sample_idle_quit_run)) <> 2%nat.
Proof.
  split; [vm_compute; reflexivity|].
  split; [vm_compute; reflexivity|].
  split; vm_compute; [reflexivity | discriminate].
Qed.

Lemma C4_idle_pass_witness :
  (exists ls1 w1 t,
     iteration sample_sys (mkLoopState None sample_A)
       (sample_world [] [[]; []; []; [quit_message 0; sample_A]; [sample_B]])
     = (ls1, w1, t)
     /\ t = [EvPeekMessage PM_REMOVE None]
     /\ ls1 = mkLoopState (Some false) sample_A
     /\ w1 = deliver (sample_world [] [[]; []; []; [quit_message 0; sample_A];
                                       [sample_B]])
     /\ idle_count t = 1%nat
     /\ hook_calls t = []
     /\ dispatched t = [])
  /\ (exists w' t,
        wWinMain sample_sys sample_uninit 0 1 (3 + 4)
          (sample_world [] [[]; []; []; [quit_message 0; sample_A]; [sample_B]])
        = (Some 0, w', t)
        /\ t = startup_events
                 (sample_world [] [[]; []; []; [quit_message 0; sample_A];
                                   [sample_B]]) 1
               ++ EvPeekMessage PM_NOREMOVE None :: idle_run 2
               ++ [EvPeekMessage PM_REMOVE (Some (quit_message 0));
                   EvTranslateMessage (quit_message 0);
                   EvDispatchMessage (quit_message 0)]
               ++ dispatch_events w' (quit_message 0)
        /\ idle_count t = 2%nat
        /\ hook_calls t = []
        /\ dispatched t = [quit_message 0]).
Proof.
  destruct (C4_idle_pass_invokes_no_hook sample_sys sample_uninit
              0 1 2 4
              (sample_world [] [[]; []; []; [quit_message 0; sample_A];
                                [sample_B]])
              (mkLoopState None sample_A) (quit_message 0) [sample_A]
              [[sample_B]]) as [Hidle Hrun].
  split.
  - apply Hidle. reflexivity.
  - apply Hrun; by_computation.
Defined.

(** C5, as the specification has it: an iteration that retrieves no
    message would perform one unit of idle work (update, render,
    present).  The iteration on an empty queue makes the poll and nothing
    else, and leaves the world as the poll left it. *)
Lemma C5_idle_work_counterexample :
  iteration sample_sys (mkLoopState None sample_A) (sample_world [] [])
  = (mkLoopState (Some false) sample_A, sample_world [] [],
     [EvPeekMessage PM_REMOVE None])
  /\ hook_calls (snd (iteration sample_sys (mkLoopState None sample_A)
                        (sample_world [] [])))
     <> [EvUpdate; EvRender; EvPresent].
Proof.
  split; vm_compute; [reflexivity | discriminate].
Qed.

Lemma C5_one_branch_witness :
  exists ls1 w1 t,
    iteration sample_sys (mkLoopState None sample_A)
      (sample_world [sample_B] []) = (ls1, w1, t)
    /\ length (peeks t) = 1%nat
    /\ hook_calls t = []
    /\ ((exists m rest,
           queue (deliver (sample_world [sample_B] [])) = m :: rest
           /\ ls1 = mkLoopState (Some true) m
           /\ peeks t = [(PM_REMOVE, Some m)]
           /\ translated t = [m]
           /\ dispatched t = [m]
           /\ idle_count t = O)
        \/ (queue (deliver (sample_world [sample_B] [])) = []
            /\ ls1 = mkLoopState (Some false) sample_A
            /\ w1 = deliver (sample_world [sample_B] [])
            /\ t = [EvPeekMessage PM_REMOVE None]
            /\ translated t = []
            /\ dispatched t = []
            /\ idle_count t = 1%nat))
    /\ forall fuel,
         message sample_A <> WM_QUIT ->
         message_loop sample_sys (S fuel) (mkLoopState None sample_A)
           (sample_world [sample_B] [])
         = let '(o, w2, t2) := message_loop sample_sys fuel ls1 w1 in
           (o, w2, t ++ t2).
Proof.
  exact (C5_one_branch_per_iteration sample_sys
           (mkLoopState None sample_A) (sample_world [sample_B] [])).
Defined.

Lemma C6_startup_failure_witness :
  exists t,
    wWinMain sample_sys sample_uninit 0 1 5
      (mkWorld [sample_A] [] 0 sample_hwnd [])
    = (Some (-1), mkWorld [sample_A] [] 0 sample_hwnd [], t)
    /\ (t = [EvRegisterClassEx 0]
        \/ t = [EvRegisterClassEx 0; EvCreateWindowEx NULL])
    /\ peeks t = []
    /\ translated t = []
    /\ dispatched t = []
    /\ idle_count t = O.
Proof.
  apply (C6_startup_failure_returns_minus_one sample_sys sample_uninit
           0 1 5 (mkWorld [sample_A] [] 0 sample_hwnd [])).
  left. reflexivity.
Defined.

Lemma C7_polls_witness :
  exists w',
    wWinMain sample_sys sample_uninit 0 1 3 (sample_world [] [])
    = (None, w',
       startup_events (sample_world [] []) 1
       ++ EvPeekMessage PM_NOREMOVE None :: idle_run 3).
Proof.
  apply (proj2 (proj2 (C7_polls_never_wait sample_sys sample_uninit
                         0 1 3 (sample_world [] [])
                         (mkLoopState None sample_A))));
    by_computation.
Defined.

Lemma C9_WndProc_witness :
  0 = 0
  /\ exists pre' m,
       firstn 7 (snd sample_destroy_run) = pre' ++ [EvDispatchMessage m]
       /\ message m = WM_DESTROY.
Proof.
  apply (proj2 (C9_WndProc_defers_to_DefWindowProc sample_sys
                  sample_uninit sample_hwnd WM_DESTROY 0 0
                  (sample_world [sample_destroy] []))
           0 1 5%nat (fst (fst sample_destroy_run))
           (snd (fst sample_destroy_run))
           (firstn 7 (snd sample_destroy_run))
           (skipn 8 (snd sample_destroy_run)) 0).
  vm_compute. reflexivity.
Defined.

Lemma C10_priming_poll_witness :
  (exists t,
     wWinMain sample_sys sample_uninit 0 1 5
       (sample_world [quit_message 0; sample_A] [])
     = (Some 0, primed_world (sample_world [quit_message 0; sample_A] []), t)
     /\ t = startup_events (sample_world [quit_message 0; sample_A] []) 1
            ++ [EvPeekMessage PM_NOREMOVE (Some (quit_message 0))]
     /\ retrieved t = []
     /\ translated t = []
     /\ dispatched t = []
     /\ idle_count t = O
     /\ hd_error (queue (primed_world
                           (sample_world [quit_message 0; sample_A] [])))
        = Some (quit_message 0))
  /\ enters_loop sample_sys sample_uninit 0 1 5 (sample_world [] [])
       (set_message sample_uninit WM_NULL).
Proof.
  split.
  - apply (C10_priming_poll sample_sys sample_uninit 0 1 5
             (sample_world [quit_message 0; sample_A] []));
      by_computation.
  - apply (C10_priming_poll sample_sys sample_uninit 0 1 5
             (sample_world [] []));
      by_computation.
Defined.

(** * More about the loop and the entry point *)

Lemma entered_app (t1 t2 : list event) :
  forall arrivals,
    entered (t1 ++ t2) arrivals
    = entered t1 arrivals ++ entered t2 (skipn (length (peeks t1)) arrivals).
Proof.
  induction t1 as [|e t1 IH]; intros arrivals; [reflexivity|].
  destruct e; cbn [app entered peeks length]; rewrite ?IH; try reflexivity.
  rewrite <- app_assoc.
  destruct arrivals; cbn [hd tl skipn]; rewrite ?skipn_nil; reflexivity.
Qed.

Lemma startup_calls_app (t1 t2 : list event) :
  startup_calls (t1 ++ t2) = startup_calls t1 ++ startup_calls t2.
Proof.
  induction t1 as [|e t1 IH]; [reflexivity|].
  destruct e; simpl; rewrite IH; reflexivity.
Qed.

Lemma deliver_exact (w : World) :
  queue (deliver w) = queue w ++ hd [] (incoming w)
  /\ incoming (deliver w) = tl (incoming w)
  /\ windows (deliver w) = windows w.
Proof.
  unfold deliver. destruct (incoming w) as [|b later] eqn:E.
  - rewrite E, app_nil_r. repeat split.
  - repeat split.
Qed.

(** What a dispatch adds to the queue is what its trace says it posted. *)
Lemma dispatch_world_entered (w : World) (m : MSG) (arrivals : list (list MSG)) :
  queue (dispatch_world w m)
  = queue w ++ entered (dispatch_events w m) arrivals
  /\ startup_calls (dispatch_events w m) = [].
Proof.
  unfold dispatch_world, dispatch_events, wndproc_world, wndproc_events.
  destruct (is_window w (hwnd m)); [destruct (message m =? WM_DESTROY)|];
    cbn [app entered startup_calls queue set_queue]; rewrite ?app_nil_r;
    split; reflexivity.
Qed.

Section Accounts.

Variable sys : System.
Variable uninit : MSG.

(** The books of one iteration. *)
Lemma iteration_accounts (ls ls1 : LoopState) (w w1 : World) (t : list event) :
  iteration sys ls w = (ls1, w1, t) ->
  translated t = retrieved t
  /\ dispatched t = retrieved t
  /\ length (peeks t) = 1%nat
  /\ (idle_count t + length (dispatched t) = 1)%nat
  /\ startup_calls t = []
  /\ retrieved t ++ queue w1 = queue w ++ entered t (incoming w)
  /\ incoming w1 = tl (incoming w)
  /\ windows w1 = windows w.
Proof.
  intros Hi.
  destruct (deliver_exact w) as (Dq & Di & Dw).
  destruct (iteration_cases sys ls w) as [[Hq Hc]|(m & rest & Hq & Hc)];
    rewrite Hc in Hi; injection Hi as <- <- <-.
  - cbn [translated dispatched retrieved peeks idle_count startup_calls entered
         length app Nat.add].
    rewrite app_nil_r, <- Dq. repeat split; assumption.
  - set (w0 := set_queue (deliver w) rest).
    destruct (dispatch_events_quiet w0 m) as (Q1 & Q2 & Q3 & Q4 & Q5).
    destruct (dispatch_world_entered w0 m (tl (incoming w))) as [E1 E2].
    destruct (dispatch_world_rest w0 m) as [R1 R2].
    cbn [translated dispatched retrieved peeks idle_count startup_calls entered
         length app].
    change (Z.testbit PM_REMOVE 0) with true. cbv iota.
    rewrite Q1, Q2, Q3, Q4, Q5, E1, E2, R1, R2.
    cbn [length Nat.add app]. repeat split; try assumption.
    unfold w0. cbn [queue set_queue].
    rewrite app_assoc, <- Dq, Hq. reflexivity.
Qed.

(** The books of a run of the loop. *)
Lemma loop_accounts (fuel : nat) :
  forall (ls : LoopState) (w w' : World) (o : outcome) (t : list event),
    message_loop sys fuel ls w = (o, w', t) ->
    translated t = retrieved t
    /\ dispatched t = retrieved t
    /\ length (peeks t) = (idle_count t + length (dispatched t))%nat
    /\ startup_calls t = []
    /\ retrieved t ++ queue w' = queue w ++ entered t (incoming w)
    /\ incoming w' = skipn (length (peeks t)) (incoming w)
    /\ windows w' = windows w.
Proof.
  induction fuel as [|fuel IH]; intros ls w w' o t Hl.
  - destruct (Z.eq_dec (message (msg ls)) WM_QUIT) as [E|E].
    + rewrite loop_exit in Hl by assumption. injection Hl as <- <- <-.
      cbn. rewrite app_nil_r. repeat split.
    + rewrite loop_out_of_fuel in Hl by assumption. injection Hl as <- <- <-.
      cbn. rewrite app_nil_r. repeat split.
  - destruct (Z.eq_dec (message (msg ls)) WM_QUIT) as [E|E].
    { rewrite loop_exit in Hl by assumption. injection Hl as <- <- <-.
      cbn. rewrite app_nil_r. repeat split. }
    destruct (loop_unfold sys fuel ls w E)
      as (ls1 & w1 & t1 & o2 & w2 & t2 & Hi & Hl2 & Hs).
    rewrite Hs in Hl. injection Hl as <- <- <-.
    destruct (iteration_accounts _ _ _ _ _ Hi)
      as (A1 & A2 & A3 & A4 & A5 & A6 & A7 & A8).
    destruct (IH _ _ _ _ _ Hl2) as (B1 & B2 & B3 & B4 & B5 & B6 & B7).
    rewrite translated_app, dispatched_app, retrieved_app, peeks_app,
      idle_count_app, startup_calls_app, entered_app, !length_app.
    rewrite A1, A2, B1, B2, A5, B4, B7, A8.
    repeat split.
    + rewrite A2 in A4. rewrite B2 in B3. lia.
    + rewrite <- app_assoc, B5, app_assoc, A6, <- app_assoc.
      rewrite A3, A7. now destruct (incoming w).
    + rewrite B6, A7, A3. cbn [Nat.add].
      destruct (incoming w); cbn [tl skipn]; rewrite ?skipn_nil; reflexivity.
Qed.

End Accounts.

Section Books.

Variable sys : System.
Variable uninit : MSG.

(** Whether both startup calls succeed in [w]. *)
Lemma startup_decided (w : World) :
  (register_result w =? 0) = true /\ register_result w = 0
  \/ (register_result w =? 0) = false /\ (create_result w =? NULL) = true
     /\ register_result w <> 0 /\ create_result w = NULL
  \/ (register_result w =? 0) = false /\ (create_result w =? NULL) = false
     /\ register_result w <> 0 /\ create_result w <> NULL.
Proof.
  destruct (register_result w =? 0) eqn:Hr.
  - left. split; [reflexivity | now apply Z.eqb_eq].
  - apply Z.eqb_neq in Hr. right.
    destruct (create_result w =? NULL) eqn:Hc.
    + left. apply Z.eqb_eq in Hc. repeat split; assumption.
    + right. apply Z.eqb_neq in Hc. repeat split; assumption.
Qed.

(** The books of a run of the entry point. *)
Lemma wWinMain_accounts (hInstance nCmdShow : Z) (fuel : nat) (w w' : World)
    (r : option Z) (t : list event) :
  wWinMain sys uninit hInstance nCmdShow fuel w = (r, w', t) ->
  translated t = retrieved t
  /\ dispatched t = retrieved t
  /\ length (peeks t)
     = ((if startup_fails w then 0 else 1)
        + idle_count t + length (dispatched t))%nat
  /\ retrieved t ++ queue w' = queue w ++ entered t (incoming w)
  /\ incoming w' = skipn (length (peeks t)) (incoming w).
Proof.
  intros Hrun.
  destruct (wWinMain_cases sys uninit hInstance nCmdShow fuel w)
    as [[Hr Hc]|[(Hr & Hcr & Hc)|(Hr & Hcr & o & w2 & tl & Hl & Hc)]];
    rewrite Hc in Hrun; injection Hrun as <- <- <-.
  - unfold startup_fails. rewrite Hr. cbn. rewrite app_nil_r. repeat split.
  - unfold startup_fails. rewrite Hcr. apply Z.eqb_neq in Hr. rewrite Hr. cbn.
    rewrite app_nil_r. repeat split.
  - destruct (loop_accounts sys fuel _ _ _ _ _ Hl)
      as (B1 & B2 & B3 & _ & B5 & B6 & _).
    pose proof (deliver_exact (started w)) as (Dq & Di & _).
    fold (primed_world w) in Dq, Di.
    cbn [started add_window queue incoming] in Dq, Di.
    apply Z.eqb_neq in Hr, Hcr. unfold startup_fails. rewrite Hr, Hcr.
    cbn [startup_events app translated dispatched retrieved peeks idle_count
         entered length orb Nat.add].
    change (Z.testbit PM_NOREMOVE 0) with false.
    assert (Hq : retrieved tl ++ queue w2
                 = queue w ++ hd [] (incoming w)
                   ++ entered tl (List.tl (incoming w)))
      by (rewrite B5, Dq, Di, app_assoc; reflexivity).
    assert (Hi : incoming w2 = skipn (S (length (peeks tl))) (incoming w)).
    { rewrite B6, Di.
      destruct (incoming w); cbn [List.tl skipn]; rewrite ?skipn_nil;
        reflexivity. }
    destruct (hd_error (queue (primed_world w))); cbv iota;
      repeat split; try assumption; now f_equal.
Qed.

(** X1.  In every run of the entry point the messages handed to
    TranslateMessage and the messages handed to DispatchMessage are the
    messages the removing polls took off the queue, each once and in that
    order, the sentinel included. *)
Theorem X1_every_retrieved_message_is_dispatched
    (hInstance nCmdShow : Z) (fuel : nat) (w : World) :
  translated (snd (wWinMain sys uninit hInstance nCmdShow fuel w))
  = retrieved (snd (wWinMain sys uninit hInstance nCmdShow fuel w))
  /\ dispatched (snd (wWinMain sys uninit hInstance nCmdShow fuel w))
     = retrieved (snd (wWinMain sys uninit hInstance nCmdShow fuel w)).
Proof.
  destruct (wWinMain sys uninit hInstance nCmdShow fuel w) as [[r w'] t] eqn:Hrun.
  destruct (wWinMain_accounts _ _ _ _ _ _ _ Hrun) as (A1 & A2 & _).
  split; assumption.
Qed.

(** X2.  In every run the polls are accounted for: none when a startup
    call failed; otherwise the priming poll plus one poll per iteration,
    and every iteration is either an idle pass or a dispatch. *)
Theorem X2_polls_are_idle_passes_and_dispatches
    (hInstance nCmdShow : Z) (fuel : nat) (w : World) :
  length (peeks (snd (wWinMain sys uninit hInstance nCmdShow fuel w)))
  = ((if startup_fails w then 0 else 1)
     + idle_count (snd (wWinMain sys uninit hInstance nCmdShow fuel w))
     + length (dispatched (snd (wWinMain sys uninit hInstance nCmdShow fuel w))))%nat.
Proof.
  destruct (wWinMain sys uninit hInstance nCmdShow fuel w) as [[r w'] t] eqn:Hrun.
  destruct (wWinMain_accounts _ _ _ _ _ _ _ Hrun) as (_ & _ & A3 & _).
  exact A3.
Qed.


End Books.

Section Endings.

Variable sys : System.
Variable uninit : MSG.

(** Why a run of the loop ended: the MSG local holds a sentinel, which
    was there from the start or was put there by the last poll. *)
Lemma loop_exit_reason (fuel : nat) :
  forall (ls ls' : LoopState) (w w' : World) (t : list event),
    message_loop sys fuel ls w = (Exited ls', w', t) ->
    message (msg ls') = WM_QUIT
    /\ ((t = [] /\ ls' = ls)
        \/ exists pre post,
             t = pre ++ EvPeekMessage PM_REMOVE (Some (msg ls')) :: post
             /\ peeks post = []).
Proof.
  induction fuel as [|fuel IH]; intros ls ls' w w' t Hl.
  - destruct (Z.eq_dec (message (msg ls)) WM_QUIT) as [E|E].
    + rewrite loop_exit in Hl by assumption. injection Hl as <- <- <-.
      split; [assumption | now left].
    + rewrite loop_out_of_fuel in Hl by assumption. discriminate Hl.
  - destruct (Z.eq_dec (message (msg ls)) WM_QUIT) as [E|E].
    { rewrite loop_exit in Hl by assumption. injection Hl as <- <- <-.
      split; [assumption | now left]. }
    destruct (loop_unfold sys fuel ls w E)
      as (ls1 & w1 & t1 & o2 & w2 & t2 & Hi & Hl2 & Hs).
    rewrite Hs in Hl. injection Hl as -> <- <-.
    destruct (IH _ _ _ _ _ Hl2) as [Hq [[-> ->]|(pre & post & -> & Hp)]].
    + split; [assumption|]. right.
      destruct (iteration_cases sys ls w) as [[_ Hc]|(m & rest & _ & Hc)];
        rewrite Hc in Hi; injection Hi as <- <- <-.
      * contradiction.
      * exists [], (EvTranslateMessage m :: EvDispatchMessage m
                    :: dispatch_events (set_queue (deliver w) rest) m).
        rewrite app_nil_r. split; [reflexivity|].
        destruct (dispatch_events_quiet (set_queue (deliver w) rest) m)
          as (Q1 & _).
        exact Q1.
    + split; [assumption|]. right.
      exists (t1 ++ pre), post. rewrite <- app_assoc. split; [reflexivity|].
      assumption.
Qed.

(** X4.  The entry point returns 0 only behind a sentinel: when a run
    returns 0, its last poll found a WM_QUIT message. *)
Theorem X4_exit_code_zero_needs_the_sentinel
    (hInstance nCmdShow : Z) (fuel : nat) (w w' : World) (t : list event) :
  wWinMain sys uninit hInstance nCmdShow fuel w = (Some 0, w', t) ->
  exists pre flag m post,
    t = pre ++ EvPeekMessage flag (Some m) :: post
    /\ message m = WM_QUIT
    /\ peeks post = [].
Proof.
  intros Hrun.
  destruct (wWinMain_cases sys uninit hInstance nCmdShow fuel w)
    as [[_ Hc]|[(_ & _ & Hc)|(Hr & Hcr & o & w2 & tl & Hl & Hc)]];
    rewrite Hc in Hrun; [discriminate Hrun | discriminate Hrun |].
  injection Hrun as Ho <- <-.
  destruct o as [ls'|ls']; [|discriminate Ho].
  destruct (loop_exit_reason fuel _ _ _ _ _ Hl)
    as [Hq [[-> ->]|(pre & post & -> & Hp)]].
  - cbn [msg] in Hq. unfold primed_msg in Hq.
    destruct (queue (primed_world w)) as [|m q]; [discriminate Hq|].
    exists (startup_events w nCmdShow), PM_NOREMOVE, m, [].
    repeat split. assumption.
  - exists (startup_events w nCmdShow
            ++ EvPeekMessage PM_NOREMOVE (hd_error (queue (primed_world w)))
               :: pre), PM_REMOVE, (msg ls'), post.
    rewrite <- app_assoc. repeat split; assumption.
Qed.

(** X5.  The entry point returns -1 exactly when RegisterClassEx answers
    0 or CreateWindowEx answers NULL.  Registration, creation and showing
    are the first calls of every run and are never repeated: the trace is
    its startup calls followed by a rest without any, and the startup
    calls are the registration alone, or registration and the failed
    creation, or registration, creation and ShowWindow with the created
    handle and the caller's [nCmdShow]. *)
Theorem X5_minus_one_only_from_startup
    (hInstance nCmdShow : Z) (fuel : nat) (w : World) :
  (fst (fst (wWinMain sys uninit hInstance nCmdShow fuel w)) = Some (-1)
   <-> (register_result w = 0 \/ create_result w = NULL))
  /\ (exists rest,
        snd (wWinMain sys uninit hInstance nCmdShow fuel w)
        = startup_calls (snd (wWinMain sys uninit hInstance nCmdShow fuel w))
          ++ rest
        /\ startup_calls rest = [])
  /\ startup_calls (snd (wWinMain sys uninit hInstance nCmdShow fuel w))
     = (if register_result w =? 0 then [EvRegisterClassEx 0]
        else if create_result w =? NULL
             then [EvRegisterClassEx (register_result w); EvCreateWindowEx NULL]
             else startup_events w nCmdShow).
Proof.
  destruct (wWinMain_cases sys uninit hInstance nCmdShow fuel w)
    as [[Hr Hc]|[(Hr & Hcr & Hc)|(Hr & Hcr & o & w2 & tl & Hl & Hc)]];
    rewrite Hc; cbn [fst snd].
  - rewrite Hr. cbn. repeat split; auto. now exists [].
  - rewrite Hcr. apply Z.eqb_neq in Hr. rewrite Hr. cbn.
    repeat split; auto. now exists [].
  - destruct (loop_accounts sys fuel _ _ _ _ _ Hl) as (_ & _ & _ & B4 & _).
    assert (Hs : startup_calls
                   (startup_events w nCmdShow
                    ++ EvPeekMessage PM_NOREMOVE
                         (hd_error (queue (primed_world w))) :: tl)
                 = startup_events w nCmdShow).
    { rewrite startup_calls_app. cbn [startup_events startup_calls app].
      now rewrite B4. }
    rewrite Hs. split; [|split].
    + split.
      * intros Ho. destruct o; discriminate Ho.
      * intros [H|H]; contradiction.
    + eexists. split; [reflexivity|]. cbn [startup_calls]. exact B4.
    + apply Z.eqb_neq in Hr, Hcr. now rewrite Hr, Hcr.
Qed.

End Endings.

Lemma destroy_count_app (ws : list Z) (l1 l2 : list MSG) :
  destroy_count ws (l1 ++ l2)
  = (destroy_count ws l1 + destroy_count ws l2)%nat.
Proof.
  induction l1 as [|m l1 IH]; [reflexivity|].
  cbn [app destroy_count]. rewrite IH.
  now destruct (existsb (Z.eqb (hwnd m)) ws && (message m =? WM_DESTROY))%bool.
Qed.

Lemma repeat_snoc {A : Type} (a : A) (n : nat) :
  repeat a n ++ [a] = a :: repeat a n.
Proof. induction n as [|n IH]; [reflexivity|]. cbn. now rewrite IH. Qed.

Section Closing.

Variable sys : System.
Variable uninit : MSG.

(** What a dispatch leaves in the queue, by counting. *)
Lemma dispatch_world_count (w : World) (m : MSG) :
  queue (dispatch_world w m)
  = queue w ++ repeat (quit_message 0) (destroy_count (windows w) [m]).
Proof.
  unfold dispatch_world, wndproc_world, is_window. cbn [destroy_count].
  destruct (existsb (Z.eqb (hwnd m)) (windows w));
    [destruct (message m =? WM_DESTROY)|]; cbn; now rewrite ?app_nil_r.
Qed.

(** Draining when nothing arrives from outside: behind the drained
    messages the queue holds one sentinel per WM_DESTROY that went to a
    window of the program. *)
Lemma loop_drain_exact (msgs : list MSG) :
  forall (rest : list MSG) (ls : LoopState) (w : World),
    not_quit (msg ls) ->
    Forall not_quit msgs ->
    incoming w = [] ->
    queue w = msgs ++ rest ->
    exists ls1 w1 t,
      message_loop sys (length msgs) ls w = (OutOfFuel ls1, w1, t)
      /\ dispatched t = msgs
      /\ idle_count t = O
      /\ queue w1
         = rest ++ repeat (quit_message 0) (destroy_count (windows w) msgs)
      /\ incoming w1 = []
      /\ windows w1 = windows w
      /\ not_quit (msg ls1).
Proof.
  induction msgs as [|m msgs IH]; intros rest ls w Hls Hall Hin Hq.
  - exists ls, w, []. cbn [repeat destroy_count app length] in *.
    rewrite app_nil_r.
    repeat split; try assumption. now apply loop_out_of_fuel.
  - inversion Hall as [|? ? Hm Hall']; subst.
    assert (Hd : deliver w = w) by (unfold deliver; now rewrite Hin).
    assert (Hdq : queue (deliver w) = m :: msgs ++ rest)
      by (rewrite Hd; exact Hq).
    pose proof (iteration_message sys ls w m _ Hdq) as Hi.
    rewrite Hd in Hi.
    set (w0 := set_queue w (msgs ++ rest)) in *.
    destruct (dispatch_world_rest w0 m) as [Hwi Hww].
    destruct (IH (rest ++ repeat (quit_message 0) (destroy_count (windows w) [m]))
                (mkLoopState (Some true) m) (dispatch_world w0 m) Hm Hall')
      as (ls1 & w1 & t & Hl & Hdi & Hid & Hq1 & Hi1 & Hw1 & Hn1).
    { rewrite Hwi. exact Hin. }
    { rewrite dispatch_world_count. unfold w0. cbn [queue set_queue windows].
      now rewrite app_assoc. }
    destruct (dispatch_events_quiet w0 m) as (_ & Q2 & _ & _ & Q5).
    eexists ls1, w1, _.
    split; [exact (loop_step sys _ _ _ _ _ _ _ _ _ Hls Hi Hl)|].
    cbn [app dispatched idle_count length].
    rewrite dispatched_app, idle_count_app, Q2, Q5, Hdi, Hid, Hq1, Hi1, Hw1, Hww.
    unfold w0. cbn [windows set_queue app Nat.add].
    repeat split; try assumption.
    rewrite <- app_assoc, <- repeat_app.
    change (m :: msgs) with ([m] ++ msgs). now rewrite destroy_count_app.
Qed.

(** X6.  Destroying the window ends the program.  When nothing arrives
    from outside and the pending messages are [msgs], none of them
    WM_QUIT, followed by a WM_DESTROY message for the window the program
    created, the run dispatches [msgs] and the WM_DESTROY message, whose
    handling posts the sentinel, then retrieves and dispatches the
    sentinel and returns 0, without an idle pass. *)
Theorem X6_destroying_the_window_ends_the_run
    (hInstance nCmdShow : Z) (k : nat) (w : World) (msgs : list MSG) (D : MSG) :
  register_result w <> 0 ->
  create_result w <> NULL ->
  incoming w = [] ->
  queue w = msgs ++ [D] ->
  Forall not_quit msgs ->
  message D = WM_DESTROY ->
  hwnd D = create_result w ->
  exists w' t,
    wWinMain sys uninit hInstance nCmdShow (length msgs + 2 + k) w
    = (Some 0, w', t)
    /\ dispatched t = msgs ++ [D; quit_message 0]
    /\ idle_count t = O.
Proof.
  intros Hr Hc Hin Hq Hall HD Hh.
  assert (HnD : not_quit D) by (unfold not_quit; rewrite HD; discriminate).
  assert (Hall' : Forall not_quit (msgs ++ [D]))
    by (apply Forall_app; split; [assumption | now constructor]).
  destruct (deliver_exact (started w)) as (Dq & Di & Dw).
  fold (primed_world w) in Dq, Di, Dw.
  cbn [started add_window queue incoming windows] in Dq, Di, Dw.
  rewrite Hin in Dq, Di. cbn [hd tl] in Dq, Di. rewrite app_nil_r, Hq in Dq.
  assert (Hp : not_quit (primed_msg uninit w)).
  { unfold primed_msg. rewrite Dq.
    destruct (msgs ++ [D]) as [|m0 l] eqn:E; [now destruct msgs|].
    now inversion Hall'. }
  destruct (loop_drain_exact (msgs ++ [D]) []
              (mkLoopState None (primed_msg uninit w)) (primed_world w))
    as (ls1 & w1 & t1 & Hl1 & Hd1 & Hi1 & Hq1 & Hin1 & Hw1 & Hn1);
    [exact Hp | exact Hall' | exact Di | now rewrite app_nil_r |].
  rewrite Dw, destroy_count_app in Hq1. cbn [destroy_count existsb app] in Hq1.
  rewrite Hh, HD, !Z.eqb_refl in Hq1. cbn [orb andb] in Hq1.
  rewrite Nat.add_comm in Hq1. cbn [Nat.add repeat] in Hq1.
  destruct (loop_drain_quit sys [] (quit_message 0) _ k ls1 w1 Hn1
              (Forall_nil _) eq_refl Hq1)
    as (w2 & t2 & Hl2 & _ & _ & _ & Hd2 & Hi2).
  cbn [length app] in Hl2, Hd2.
  pose proof (loop_split sys (length (msgs ++ [D])) (1 + k)
                (mkLoopState None (primed_msg uninit w)) (primed_world w))
    as Hs.
  rewrite Hl1, Hl2 in Hs.
  replace (length (msgs ++ [D]) + (1 + k))%nat
    with (length msgs + 2 + k)%nat in Hs by (rewrite length_app; cbn; lia).
  pose proof (wWinMain_run sys uninit hInstance nCmdShow _ w _ _ _ Hr Hc Hs)
    as Hrun.
  cbn [exit_status] in Hrun.
  eexists _, _. split; [exact Hrun|].
  rewrite !dispatched_app, !idle_count_app.
  cbn [startup_events dispatched idle_count app Nat.add].
  change (Z.testbit PM_NOREMOVE 0) with false.
  rewrite !dispatched_app, !idle_count_app, Hd1, Hi1, Hd2, Hi2.
  rewrite <- app_assoc.
  destruct (hd_error (queue (primed_world w))); repeat split.
Qed.

End Closing.

(** What the loop does depends on the MSG local only through its
    [message] field, and not on what DefWindowProc returns. *)
Lemma loop_independent (sysA sysB : System) (fuel : nat) :
  forall (lsA lsB : LoopState) (w : World),
    message (msg lsA) = message (msg lsB) ->
    exit_status (fst (fst (message_loop sysA fuel lsA w)))
    = exit_status (fst (fst (message_loop sysB fuel lsB w)))
    /\ snd (fst (message_loop sysA fuel lsA w))
       = snd (fst (message_loop sysB fuel lsB w))
    /\ snd (message_loop sysA fuel lsA w) = snd (message_loop sysB fuel lsB w).
Proof.
  induction fuel as [|fuel IH]; intros lsA lsB w Hm.
  - destruct (Z.eq_dec (message (msg lsA)) WM_QUIT) as [E|E].
    + rewrite !loop_exit by congruence. repeat split.
    + rewrite !loop_out_of_fuel by congruence. repeat split.
  - destruct (Z.eq_dec (message (msg lsA)) WM_QUIT) as [E|E].
    { rewrite !loop_exit by congruence. repeat split. }
    assert (E' : message (msg lsB) <> WM_QUIT) by congruence.
    destruct (queue (deliver w)) as [|m rest] eqn:Hq.
    + pose proof (iteration_idle sysA lsA w Hq) as HiA.
      pose proof (iteration_idle sysB lsB w Hq) as HiB.
      specialize (IH (mkLoopState (Some false) (msg lsA))
                     (mkLoopState (Some false) (msg lsB)) (deliver w) Hm).
      destruct (message_loop sysA fuel _ (deliver w)) as [[oA wA] tA] eqn:HA.
      destruct (message_loop sysB fuel _ (deliver w)) as [[oB wB] tB] eqn:HB.
      rewrite (loop_step sysA _ _ _ _ _ _ _ _ _ E HiA HA).
      rewrite (loop_step sysB _ _ _ _ _ _ _ _ _ E' HiB HB).
      cbn [fst snd] in *. destruct IH as (I1 & I2 & I3).
      repeat split; congruence.
    + pose proof (iteration_message sysA lsA w m rest Hq) as HiA.
      pose proof (iteration_message sysB lsB w m rest Hq) as HiB.
      specialize (IH (mkLoopState (Some true) m) (mkLoopState (Some true) m)
                     (dispatch_world (set_queue (deliver w) rest) m) eq_refl).
      destruct (message_loop sysA fuel _ _) as [[oA wA] tA] eqn:HA.
      destruct (message_loop sysB fuel _ _) as [[oB wB] tB] eqn:HB.
      rewrite (loop_step sysA _ _ _ _ _ _ _ _ _ E HiA HA).
      rewrite (loop_step sysB _ _ _ _ _ _ _ _ _ E' HiB HB).
      cbn [fst snd] in *. destruct IH as (I1 & I2 & I3).
      repeat split; congruence.
Qed.

(** X7.  A run does not depend on the indeterminate contents the MSG
    local has before line 95 sets its [message] field, nor on the values
    DefWindowProc returns: two runs that differ only in these return the
    same exit code, leave the same world and make the same calls. *)
Theorem X7_run_ignores_garbage_and_results
    (def_procA def_procB : Z -> Z -> Z -> Z -> Z)
    (icon cursor : Z -> Z -> Z) (stock : Z -> Z) (uninitA uninitB : MSG)
    (hInstance nCmdShow : Z) (fuel : nat) (w : World) :
  wWinMain (mkSystem def_procA icon cursor stock) uninitA hInstance nCmdShow
    fuel w
  = wWinMain (mkSystem def_procB icon cursor stock) uninitB hInstance nCmdShow
      fuel w.
Proof.
  set (sysA := mkSystem def_procA icon cursor stock).
  set (sysB := mkSystem def_procB icon cursor stock).
  destruct (wWinMain_cases sysA uninitA hInstance nCmdShow fuel w)
    as [[Hr HA]|[(Hr & Hcr & HA)|(Hr & Hcr & oA & wA & tA & HlA & HA)]].
  - rewrite HA. symmetry. now apply wWinMain_register_fails.
  - rewrite HA. symmetry. now apply wWinMain_create_fails.
  - rewrite HA.
    destruct (message_loop sysB fuel (mkLoopState None (primed_msg uninitB w))
                (primed_world w)) as [[oB wB] tB] eqn:HlB.
    rewrite (wWinMain_run sysB uninitB hInstance nCmdShow fuel w wB oB tB
               Hr Hcr HlB).
    destruct (loop_independent sysA sysB fuel
                (mkLoopState None (primed_msg uninitA w))
                (mkLoopState None (primed_msg uninitB w)) (primed_world w))
      as (I1 & I2 & I3).
    { unfold primed_msg. now destruct (queue (primed_world w)). }
    rewrite HlA, HlB in I1, I2, I3. cbn [fst snd] in I1, I2, I3.
    now rewrite I1, I2, I3.
Qed.

Section Behind.

Variable sys : System.
Variable uninit : MSG.

(** X8.  Nothing behind the sentinel is ever dispatched.  With [msgs]
    (none of them WM_QUIT), then a WM_QUIT message [Q], then [rest]
    pending, the run returns 0 whatever arrives later.  If [msgs] is not
    empty, exactly [msgs] and [Q] are retrieved and dispatched and [rest]
    is left at the head of the queue; if [Q] is the first pending message,
    nothing is retrieved or dispatched and [Q] itself stays at the head of
    the queue. *)
Theorem X8_nothing_behind_the_sentinel_is_dispatched
    (hInstance nCmdShow : Z) (k : nat) (w : World) (msgs rest : list MSG)
    (Q : MSG) :
  register_result w <> 0 ->
  create_result w <> NULL ->
  queue w = msgs ++ Q :: rest ->
  Forall not_quit msgs ->
  message Q = WM_QUIT ->
  exists w' t later,
    wWinMain sys uninit hInstance nCmdShow (S (length msgs) + k) w
    = (Some 0, w', t)
    /\ dispatched t = retrieved t
    /\ retrieved t = match msgs with [] => [] | _ :: _ => msgs ++ [Q] end
    /\ queue w'
       = match msgs with [] => Q :: rest | _ :: _ => rest end ++ later
    /\ idle_count t = O.
Proof.
  intros Hr Hc Hq Hall HQ.
  destruct (primed_world_queue w) as [batch Hb]. rewrite Hq in Hb.
  destruct msgs as [|m msgs].
  - cbn [app] in Hb.
    assert (Hp : primed_msg uninit w = Q).
    { unfold primed_msg. now rewrite Hb. }
    pose proof (loop_exit sys (S (length (@nil MSG)) + k)
                  (mkLoopState None (primed_msg uninit w)) (primed_world w))
      as Hx.
    cbn [msg] in Hx. rewrite Hp in Hx. specialize (Hx HQ). rewrite <- Hp in Hx.
    pose proof (wWinMain_run sys uninit hInstance nCmdShow _ w _ _ _ Hr Hc Hx)
      as Hrun.
    cbn [exit_status] in Hrun.
    eexists _, _, batch. split; [exact Hrun|].
    rewrite Hb. cbn [hd_error app]. repeat split.
  - inversion Hall as [|? ? Hm Hall']; subst.
    assert (Hp : primed_msg uninit w = m).
    { unfold primed_msg. rewrite Hb. reflexivity. }
    rewrite <- app_assoc in Hb. cbn [app] in Hb.
    destruct (loop_drain_quit sys (m :: msgs) Q (rest ++ batch) k
                (mkLoopState None (primed_msg uninit w)) (primed_world w))
      as (w1 & t1 & Hl & _ & Hre & _ & Hdi & Hid);
      [cbn [msg]; now rewrite Hp | assumption | assumption | exact Hb |].
    pose proof (wWinMain_run sys uninit hInstance nCmdShow _ w _ _ _ Hr Hc Hl)
      as Hrun.
    cbn [exit_status] in Hrun.
    destruct (wWinMain_accounts sys uninit _ _ _ _ _ _ _ Hrun)
      as (_ & A2 & _ & A4 & _).
    assert (Hret : retrieved
                     (startup_events w nCmdShow
                      ++ EvPeekMessage PM_NOREMOVE
                           (hd_error (queue (primed_world w))) :: t1)
                   = (m :: msgs) ++ [Q]).
    { rewrite retrieved_app. cbn [startup_events retrieved app].
      change (Z.testbit PM_NOREMOVE 0) with false.
      destruct (hd_error (queue (primed_world w))); exact Hre. }
    rewrite Hret, Hq in A4. rewrite <- !app_assoc in A4. cbn [app] in A4.
    injection A4 as A4. apply app_inv_head in A4. injection A4 as A4.
    eexists _, _, _. split; [exact Hrun|].
    rewrite A2, Hret. split; [reflexivity|]. split; [reflexivity|].
    split; [exact A4|].
    rewrite idle_count_app. cbn [startup_events idle_count app Nat.add].
    change (Z.testbit PM_NOREMOVE 0) with false.
    destruct (hd_error (queue (primed_world w))); exact Hid.
Qed.

(** A run of the loop that stopped for lack of fuel used all of it. *)
Lemma loop_uses_its_fuel (fuel : nat) :
  forall (ls ls' : LoopState) (w w' : World) (t : list event),
    message_loop sys fuel ls w = (OutOfFuel ls', w', t) ->
    (idle_count t + length (dispatched t) = fuel)%nat
    /\ message (msg ls') <> WM_QUIT.
Proof.
  induction fuel as [|fuel IH]; intros ls ls' w w' t Hl.
  - destruct (Z.eq_dec (message (msg ls)) WM_QUIT) as [E|E].
    + rewrite loop_exit in Hl by assumption. discriminate Hl.
    + rewrite loop_out_of_fuel in Hl by assumption.
      injection Hl as <- <- <-. split; [reflexivity | assumption].
  - destruct (Z.eq_dec (message (msg ls)) WM_QUIT) as [E|E].
    { rewrite loop_exit in Hl by assumption. discriminate Hl. }
    destruct (loop_unfold sys fuel ls w E)
      as (ls1 & w1 & t1 & o2 & w2 & t2 & Hi & Hl2 & Hs).
    rewrite Hs in Hl. injection Hl as -> <- <-.
    destruct (IH _ _ _ _ _ Hl2) as [Hn Hq].
    destruct (iteration_accounts sys _ _ _ _ _ Hi) as (_ & _ & _ & A4 & _).
    rewrite idle_count_app, dispatched_app, length_app.
    split; [lia | assumption].
Qed.

(** X9.  The loop stops for the sentinel only.  A run that is still in
    the loop when its fuel is spent has performed exactly that many
    iterations, each an idle pass or a dispatch, and has retrieved no
    WM_QUIT message. *)
Theorem X9_the_loop_runs_until_the_sentinel
    (hInstance nCmdShow : Z) (fuel : nat) (w w' : World) (t : list event) :
  wWinMain sys uninit hInstance nCmdShow fuel w = (None, w', t) ->
  (idle_count t + length (dispatched t) = fuel)%nat
  /\ length (peeks t) = S fuel
  /\ Forall not_quit (retrieved t).
Proof.
  intros Hrun.
  destruct (wWinMain_accounts sys uninit _ _ _ _ _ _ _ Hrun)
    as (_ & A2 & A3 & _).
  destruct (wWinMain_cases sys uninit hInstance nCmdShow fuel w)
    as [[_ Hc]|[(_ & _ & Hc)|(Hr & Hcr & o & w2 & tl & Hl & Hc)]];
    rewrite Hc in Hrun; [discriminate Hrun | discriminate Hrun |].
  injection Hrun as Ho <- <-.
  destruct o as [ls'|ls']; [discriminate Ho|].
  destruct (loop_uses_its_fuel fuel _ _ _ _ _ Hl) as [Hn _].
  assert (Hcount : (idle_count
                      (startup_events w nCmdShow
                       ++ EvPeekMessage PM_NOREMOVE
                            (hd_error (queue (primed_world w))) :: tl)
                    + length (dispatched
                                (startup_events w nCmdShow
                                 ++ EvPeekMessage PM_NOREMOVE
                                      (hd_error (queue (primed_world w)))
                                    :: tl)))%nat = fuel).
  { rewrite idle_count_app, dispatched_app.
    cbn [startup_events idle_count dispatched app Nat.add].
    change (Z.testbit PM_NOREMOVE 0) with false.
    destruct (hd_error (queue (primed_world w))); exact Hn. }
  split; [exact Hcount|]. split.
  - rewrite A3. unfold startup_fails.
    apply Z.eqb_neq in Hr, Hcr. rewrite Hr, Hcr.
    cbn [orb idle_count dispatched].
    change (Z.testbit PM_NOREMOVE 0) with false.
    destruct (hd_error (queue (primed_world w))); cbv iota; lia.
  - apply Forall_forall. intros q Hin Hq.
    assert (Hinr : In q (retrieved tl)).
    { cbn [retrieved] in Hin.
      change (Z.testbit PM_NOREMOVE 0) with false in Hin.
      now destruct (hd_error (queue (primed_world w))). }
    clear - Hinr Hq Hl.
    revert Hinr Hl. generalize (mkLoopState None (primed_msg uninit w)).
    generalize (primed_world w). revert tl w2 ls'.
    induction fuel as [|n IH]; intros tl w2 ls' w0 ls0 Hinr Hl.
    + destruct (Z.eq_dec (message (msg ls0)) WM_QUIT) as [E|E].
      * rewrite loop_exit in Hl by assumption. discriminate Hl.
      * rewrite loop_out_of_fuel in Hl by assumption.
        injection Hl as <- <- <-. destruct Hinr.
    + destruct (Z.eq_dec (message (msg ls0)) WM_QUIT) as [E|E].
      { rewrite loop_exit in Hl by assumption. discriminate Hl. }
      destruct (loop_unfold sys n ls0 w0 E)
        as (ls1 & w1 & t1 & o2 & w3 & t2 & Hi & Hl2 & Hs).
      rewrite Hs in Hl. injection Hl as -> <- <-.
      rewrite retrieved_app in Hinr. apply in_app_or in Hinr.
      destruct Hinr as [Hin1|Hin2]; [|exact (IH _ _ _ _ _ Hin2 Hl2)].
      destruct (iteration_cases sys ls0 w0) as [[_ Hc]|(m & rest & _ & Hc)];
        rewrite Hc in Hi; injection Hi as <- <- <-.
      * destruct Hin1.
      * destruct (dispatch_events_quiet (set_queue (deliver w0) rest) m)
          as (_ & _ & _ & Q4 & _).
        cbn [retrieved] in Hin1. change (Z.testbit PM_REMOVE 0) with true in Hin1.
        cbv iota in Hin1. rewrite Q4 in Hin1.
        destruct Hin1 as [<-|[]].
        destruct n as [|n'].
        -- rewrite loop_exit in Hl2 by exact Hq. discriminate Hl2.
        -- rewrite loop_exit in Hl2 by exact Hq. discriminate Hl2.
Qed.

End Behind.

(** * The further properties on sample runs *)


Lemma X4_exit_code_zero_witness :
  exists pre flag m post,
    snd sample_quit_run = pre ++ EvPeekMessage flag (Some m) :: post
    /\ message m = WM_QUIT
    /\ peeks post = [].
Proof.
  apply (X4_exit_code_zero_needs_the_sentinel sample_sys sample_uninit 0 1 5
           (sample_world [sample_A; quit_message 0] [])
           (snd (fst sample_quit_run)) (snd sample_quit_run)).
  vm_compute. reflexivity.
Defined.

Lemma X5_minus_one_witness :
  fst (fst (wWinMain sample_sys sample_uninit 0 1 5
              (mkWorld [sample_A] [] 49217 NULL [])))
  = Some (-1).
Proof.
  apply (proj1 (X5_minus_one_only_from_startup sample_sys sample_uninit 0 1 5
                  (mkWorld [sample_A] [] 49217 NULL []))).
  right. reflexivity.
Defined.

Lemma X6_destroying_the_window_witness :
  exists w' t,
    wWinMain sample_sys sample_uninit 0 1 (length [sample_A] + 2 + 0)
      (sample_world [sample_A; sample_destroy] [])
    = (Some 0, w', t)
    /\ dispatched t = [sample_A] ++ [sample_destroy; quit_message 0]
    /\ idle_count t = O.
Proof.
  apply (X6_destroying_the_window_ends_the_run sample_sys sample_uninit 0 1 0
           (sample_world [sample_A; sample_destroy] []) [sample_A]
           sample_destroy).
  - by_computation.
  - by_computation.
  - reflexivity.
  - reflexivity.
  - repeat constructor; by_computation.
  - reflexivity.
  - reflexivity.
Defined.

Lemma X8_nothing_behind_the_sentinel_witness :
  exists w' t later,
    wWinMain sample_sys sample_uninit 0 1 (S (length [sample_A]) + 3)
      (sample_world [sample_A; quit_message 0; sample_B] [[sample_B]])
    = (Some 0, w', t)
    /\ dispatched t = retrieved t
    /\ retrieved t = [sample_A] ++ [quit_message 0]
    /\ queue w' = [sample_B] ++ later
    /\ idle_count t = O.
Proof.
  apply (X8_nothing_behind_the_sentinel_is_dispatched sample_sys sample_uninit
           0 1 3
           (sample_world [sample_A; quit_message 0; sample_B] [[sample_B]])
           [sample_A] [sample_B] (quit_message 0)).
  - by_computation.
  - by_computation.
  - reflexivity.
  - repeat constructor; by_computation.
  - reflexivity.
Defined.

Lemma X9_the_loop_runs_witness :
  (idle_count (snd (wWinMain sample_sys sample_uninit 0 1 4
                      (sample_world [sample_A] [[]; []; [sample_B]])))
   + length (dispatched
               (snd (wWinMain sample_sys sample_uninit 0 1 4
                       (sample_world [sample_A] [[]; []; [sample_B]]))))
   = 4)%nat
  /\ length (peeks (snd (wWinMain sample_sys sample_uninit 0 1 4
                           (sample_world [sample_A] [[]; []; [sample_B]]))))
     = 5%nat
  /\ Forall not_quit
       (retrieved (snd (wWinMain sample_sys sample_uninit 0 1 4
                          (sample_world [sample_A] [[]; []; [sample_B]])))).
Proof.
  apply (X9_the_loop_runs_until_the_sentinel sample_sys sample_uninit 0 1 4
           (sample_world [sample_A] [[]; []; [sample_B]])
           (snd (fst (wWinMain sample_sys sample_uninit 0 1 4
                        (sample_world [sample_A] [[]; []; [sample_B]]))))).
  vm_compute. reflexivity.
Defined.
